(** * The Bedrock / LlamaIndex / Elasticsearch agent notebook

    A shallow embedding of
    [aws_bedrock/building_an_agent/01_adding_rag_to_an_agent_vdb_elasticsearch.ipynb].

    The notebook has two kinds of code:
    - two arithmetic helpers, [multiply] and [add], on Python [float]s;
    - glue code that reads the process environment, assigns two fields of
      the global [Settings] object, prints, and calls third-party libraries.

    Python floats are IEEE 754 binary64 numbers; they are modelled with the
    executable specification of the Standard Library ([SpecFloat], precision
    53, exponent bound 1024).  The glue code is modelled in a state and
    exception monad whose state holds the interpreter's globals and a log of
    every observable action; the libraries are an arbitrary oracle. *)

From Stdlib Require Import ZArith Bool List String Lia.
From Stdlib Require Import Floats.SpecFloat.
From stdpp Require Import base option gmap strings.

Import ListNotations.
Local Open Scope Z_scope.
Local Open Scope string_scope.
Local Open Scope list_scope.

(** ** Python floats *)

Module PyFloat.

Definition prec : Z := 53.
Definition emax : Z := 1024.

(** A Python [float]. *)
Definition float : Type := spec_float.

(** [a + b], [a * b] and [a == b] on floats. *)
Definition float_add (a b : float) : float := SFadd prec emax a b.
Definition float_mul (a b : float) : float := SFmul prec emax a b.
Definition float_eq (a b : float) : bool := SFeqb a b.

(** The floats that denote a real number: everything but the infinities
    and NaN ([math.isfinite]). *)
Definition is_real (a : float) : bool :=
  match a with
  | S754_zero _ | S754_finite _ _ _ => true
  | S754_infinity _ | S754_nan => false
  end.

Definition is_nan (a : float) : bool :=
  match a with S754_nan => true | _ => false end.

(** The floats the interpreter can hold. *)
Definition well_formed (a : float) : bool := valid_binary prec emax a.

Definition pos_zero : float := S754_zero false.
Definition neg_zero : float := S754_zero true.
Definition pos_inf : float := S754_infinity false.
Definition neg_inf : float := S754_infinity true.
Definition nan : float := S754_nan.

(** [float(z)] for an integer literal that fits: correctly rounded. *)
Definition of_Z (z : Z) : float := binary_normalize prec emax z 0 false.

(** [m * 2**e], correctly rounded. *)
Definition of_scaled (m e : Z) : float := binary_normalize prec emax m e false.

(** The literals [0.1], [0.2] and [0.3]. *)
Definition tenth : float := S754_finite false 7205759403792794 (-56).
Definition fifth : float := S754_finite false 7205759403792794 (-55).
Definition three_tenths : float := S754_finite false 5404319552844595 (-54).

End PyFloat.

Import PyFloat.

(** ** The arithmetic helpers of the notebook *)

(** Both helpers are declared on [float]s, and are modelled on them.

    [def multiply(a: float, b: float) -> float: return a * b] *)
Definition multiply (a b : float) : float := float_mul a b.

(** [def add(a: float, b: float) -> float: return a + b] *)
Definition add (a b : float) : float := float_add a b.

(** ** Values that flow through the glue code *)

(** The notebook's own functions, passed as values to
    [FunctionTool.from_defaults(fn=...)]. *)
Inductive PyFn : Type := fn_multiply | fn_add.

Definition PyFn_call (f : PyFn) : float -> float -> float :=
  match f with
  | fn_multiply => multiply
  | fn_add => add
  end.

(** The fields of the global [Settings] object the notebook assigns. *)
Inductive SettingsField : Type := field_llm | field_embed_model.

Section Notebook.

(** Objects made by the libraries (readers, document lists, stores,
    indexes, tools, agents, responses) are opaque handles; so are the
    exceptions the libraries raise. *)
Context {Obj Exc : Type}.

(** The library entry points the notebook calls, with the arguments it
    passes.  [os.getenv] returns [None] for an unset variable, hence the
    [option string] arguments. *)
Inductive Call : Type :=
| load_dotenv
| Bedrock (model : option string) (temperature max_tokens : Z)
| SimpleDirectoryReader (input_dir : string) (required_exts : list string)
| reader_load_data (reader : Obj)
| ElasticsearchStore (index_name es_url es_user es_password : option string)
| boto3_client (service_name : string)
| BedrockEmbedding (model_name : option string) (client : Obj)
| StorageContext_from_defaults (vector_store : Obj)
| VectorStoreIndex_from_documents
    (documents storage_context : Obj) (show_progress : bool)
| FunctionTool_from_defaults (fn : PyFn)
| index_as_query_engine (index : Obj)
| QueryEngineTool_from_defaults (query_engine : Obj) (name description : string)
| ReActAgent_from_tools (tools : list Obj) (verbose : bool)
| agent_chat (agent : Obj) (message : string).

(** What [print] is given. *)
Inductive PyVal : Type :=
| PyStr (s : string)
| PyObj (o : Obj).

(** The observable actions of the notebook, logged in order. *)
Inductive Event : Type :=
| Getenv (name : string) (value : option string)
| LibCall (c : Call) (outcome : Exc + Obj)
| Assign (field : SettingsField) (value : Obj)
| Print (v : PyVal).

(** The interpreter state shared by all steps: the process environment
    ([os.environ]), the two [Settings] fields, and the log. *)
Record State : Type := mkState {
  environ : gmap string string;
  Settings_llm : option Obj;
  Settings_embed_model : option Obj;
  trace : list Event
}.

(** The state one step leaves for the others, the log apart. *)
Definition globals (st : State)
  : gmap string string * option Obj * option Obj :=
  (environ st, Settings_llm st, Settings_embed_model st).

Definition logs (evs : list Event) (st : State) : State :=
  mkState (environ st) (Settings_llm st) (Settings_embed_model st)
          (trace st ++ evs).

Definition log (ev : Event) (st : State) : State := logs [ev] st.

Definition set_field (f : SettingsField) (o : Obj) (st : State) : State :=
  match f with
  | field_llm =>
      mkState (environ st) (Some o) (Settings_embed_model st) (trace st)
  | field_embed_model =>
      mkState (environ st) (Settings_llm st) (Some o) (trace st)
  end.

Definition set_environ (env : gmap string string) (st : State) : State :=
  mkState env (Settings_llm st) (Settings_embed_model st) (trace st).

(** The libraries.  The outcome of a call (an exception or an object) may
    depend on everything that happened before, which the state records.
    [lib_dotenv] is the environment as a returning [load_dotenv()] leaves
    it.  The other library calls are taken not to assign [os.environ] or
    the two [Settings] fields.  That fits the cell, where the library
    reaches the two fields only after the notebook has assigned them; on an
    unassigned field the library would store a default of its own, so
    nothing below is stated about what a library call leaves unchanged. *)
Record Library : Type := {
  lib_call : State -> Call -> Exc + Obj;
  lib_dotenv : State -> gmap string string
}.

(** *** The state and exception monad *)

Definition M (A : Type) : Type := State -> (Exc + A) * State.

Definition ret {A} (a : A) : M A := fun st => (inr a, st).

(** An exception ends the computation: nothing catches it. *)
Definition bind {A B} (m : M A) (k : A -> M B) : M B :=
  fun st =>
    match m st with
    | (inl e, st') => (inl e, st')
    | (inr a, st') => k a st'
    end.

(** Python's [try: m except Exception as e: handler(e)].  The notebook has
    no such block; the combinator is here to say what its absence means. *)
Definition try_except {A} (m : M A) (handler : Exc -> M A) : M A :=
  fun st =>
    match m st with
    | (inl e, st') => handler e st'
    | (inr a, st') => (inr a, st')
    end.

Notation "x <- m ;; k" := (bind m (fun x => k))
  (at level 100, m at next level, right associativity).
Notation "m ;; k" := (bind m (fun _ => k))
  (at level 100, right associativity).

Variable lib : Library.

(** [os.getenv(name)] *)
Definition getenv (name : string) : M (option string) :=
  fun st =>
    let v := environ st !! name in
    (inr v, log (Getenv name v) st).

(** A library call other than [load_dotenv()]. *)
Definition call (c : Call) : M Obj :=
  fun st =>
    let r := lib_call lib st c in
    (r, log (LibCall c r) st).

(** [load_dotenv()] *)
Definition call_load_dotenv : M Obj :=
  fun st =>
    match lib_call lib st load_dotenv with
    | inl e => (inl e, log (LibCall load_dotenv (inl e)) st)
    | inr b => (inr b, log (LibCall load_dotenv (inr b))
                           (set_environ (lib_dotenv lib st) st))
    end.

(** [Settings.<field> = o]; the setter is taken to store the object. *)
Definition assign (f : SettingsField) (o : Obj) : M unit :=
  fun st => (inr tt, log (Assign f o) (set_field f o st)).

(** [print(v)] *)
Definition print (v : PyVal) : M unit :=
  fun st => (inr tt, log (Print v) st).

(** *** The functions of the notebook *)

Definition load_documents (pdf_folder : string) : M Obj :=
  reader <- call (SimpleDirectoryReader pdf_folder [".pdf"]) ;;
  documents <- call (reader_load_data reader) ;;
  ret documents.

Definition initialize_elasticsearch : M Obj :=
  host <- getenv "ELASTIC_HOST" ;;
  username <- getenv "ELASTIC_USERNAME" ;;
  password <- getenv "ELASTIC_PASSWORD" ;;
  index_name <- getenv "INDEX_NAME" ;;
  vector_store <- call (ElasticsearchStore index_name host username password) ;;
  ret vector_store.

Definition create_index (documents vector_store : Obj) : M Obj :=
  boto3_bedrock_client <- call (boto3_client "bedrock-runtime") ;;
  model_name <- getenv "AWS_BEDROCK_EMBEDDING_MODEL" ;;
  bedrock_embedding_model <-
    call (BedrockEmbedding model_name boto3_bedrock_client) ;;
  assign field_embed_model bedrock_embedding_model ;;
  storage_context <- call (StorageContext_from_defaults vector_store) ;;
  index <- call (VectorStoreIndex_from_documents documents storage_context true) ;;
  ret index.

Definition get_budget_tool (index : Obj) (name description : string) : M Obj :=
  query_engine <- call (index_as_query_engine index) ;;
  budget_tool <- call (QueryEngineTool_from_defaults query_engine name description) ;;
  ret budget_tool.

Definition get_react_agent (multiply_tool add_tool budget_tool : Obj) : M Obj :=
  agent <- call (ReActAgent_from_tools [multiply_tool; add_tool; budget_tool] true) ;;
  ret agent.

(** *** The execution-flow cell *)

Definition budget_tool_name : string := "canadian_budget_2023".
Definition budget_tool_description : string :=
  "A RAG engine with some basic facts about the 2023 Canadian federal budget.".
Definition chat_message : string :=
  "What is the total amount of the 2023 Canadian federal budget multiplied by 3? Go step by step, using a tool to do any math.".

(** The cell ends by binding [response]; that value is returned here so
    that statements can name it. *)
Definition execution_flow : M Obj :=
  call_load_dotenv ;;
  model <- getenv "AWS_BEDROCK_LLM_MODEL" ;;
  llm <- call (Bedrock model 0 1000) ;;
  assign field_llm llm ;;
  print (PyStr "Loading documents...") ;;
  documents <- load_documents "./data" ;;
  print (PyObj documents) ;;
  print (PyStr "Initializing OpenSearch...") ;;
  vector_store <- initialize_elasticsearch ;;
  print (PyObj vector_store) ;;
  print (PyStr "Creating index and storing embeddings...") ;;
  index <- create_index documents vector_store ;;
  print (PyStr "Get Basic Maths Functions and Query Engine Tools...") ;;
  multiply_tool <- call (FunctionTool_from_defaults fn_multiply) ;;
  add_tool <- call (FunctionTool_from_defaults fn_add) ;;
  budget_tool <- get_budget_tool index budget_tool_name budget_tool_description ;;
  print (PyObj budget_tool) ;;
  print (PyStr "Initialize and Get ReAct Agent for Chat...") ;;
  agent <- get_react_agent multiply_tool add_tool budget_tool ;;
  response <- call (agent_chat agent chat_message) ;;
  ret response.

End Notebook.

Arguments Call : clear implicits.
Arguments PyVal : clear implicits.
Arguments Event : clear implicits.
Arguments State : clear implicits.
Arguments Library : clear implicits.

(** ** Vocabulary for the statements *)

Section Observations.

Context {Obj Exc : Type}.

(** The events a computation adds to the log when run from [st]. *)
Definition events_of {A} (m : @M Obj Exc A) (st : State Obj Exc)
  : list (Event Obj Exc) :=
  drop (length (trace st)) (trace (snd (m st))).

(** The outcome of a computation run from [st]. *)
Definition outcome {A} (m : @M Obj Exc A) (st : State Obj Exc) : Exc + A :=
  fst (m st).

(** The default for the last event of an empty log. *)
Definition no_event : Event Obj Exc := Print (PyStr "<no event>").

(** A library call that raised. *)
Definition failed (ev : Event Obj Exc) : bool :=
  match ev with
  | LibCall _ (inl _) => true
  | _ => false
  end.

Definition is_chat (ev : Event Obj Exc) : bool :=
  match ev with
  | LibCall (agent_chat _ _) _ => true
  | _ => false
  end.

(** The objects a complete run obtains from the libraries, named after the
    variables of the notebook that hold them. *)
Record Handles : Type := {
  h_dotenv : Obj;
  h_llm : Obj;
  h_reader : Obj;
  h_documents : Obj;
  h_vector_store : Obj;
  h_boto3_bedrock_client : Obj;
  h_bedrock_embedding_model : Obj;
  h_storage_context : Obj;
  h_index : Obj;
  h_multiply_tool : Obj;
  h_add_tool : Obj;
  h_query_engine : Obj;
  h_budget_tool : Obj;
  h_agent : Obj;
  h_response : Obj
}.

(** The log of a run of the execution-flow cell in which every library
    call returns, [env] being the environment [load_dotenv()] left. *)
Definition linear_trace (env : gmap string string) (h : Handles)
  : list (Event Obj Exc) :=
  [ LibCall load_dotenv (inr (h_dotenv h));
    Getenv "AWS_BEDROCK_LLM_MODEL" (env !! "AWS_BEDROCK_LLM_MODEL");
    LibCall (Bedrock (env !! "AWS_BEDROCK_LLM_MODEL") 0 1000) (inr (h_llm h));
    Assign field_llm (h_llm h);
    Print (PyStr "Loading documents...");
    LibCall (SimpleDirectoryReader "./data" [".pdf"]) (inr (h_reader h));
    LibCall (reader_load_data (h_reader h)) (inr (h_documents h));
    Print (PyObj (h_documents h));
    Print (PyStr "Initializing OpenSearch...");
    Getenv "ELASTIC_HOST" (env !! "ELASTIC_HOST");
    Getenv "ELASTIC_USERNAME" (env !! "ELASTIC_USERNAME");
    Getenv "ELASTIC_PASSWORD" (env !! "ELASTIC_PASSWORD");
    Getenv "INDEX_NAME" (env !! "INDEX_NAME");
    LibCall (ElasticsearchStore (env !! "INDEX_NAME") (env !! "ELASTIC_HOST")
               (env !! "ELASTIC_USERNAME") (env !! "ELASTIC_PASSWORD"))
            (inr (h_vector_store h));
    Print (PyObj (h_vector_store h));
    Print (PyStr "Creating index and storing embeddings...");
    LibCall (boto3_client "bedrock-runtime") (inr (h_boto3_bedrock_client h));
    Getenv "AWS_BEDROCK_EMBEDDING_MODEL" (env !! "AWS_BEDROCK_EMBEDDING_MODEL");
    LibCall (BedrockEmbedding (env !! "AWS_BEDROCK_EMBEDDING_MODEL")
               (h_boto3_bedrock_client h))
            (inr (h_bedrock_embedding_model h));
    Assign field_embed_model (h_bedrock_embedding_model h);
    LibCall (StorageContext_from_defaults (h_vector_store h))
            (inr (h_storage_context h));
    LibCall (VectorStoreIndex_from_documents (h_documents h)
               (h_storage_context h) true)
            (inr (h_index h));
    Print (PyStr "Get Basic Maths Functions and Query Engine Tools...");
    LibCall (FunctionTool_from_defaults fn_multiply) (inr (h_multiply_tool h));
    LibCall (FunctionTool_from_defaults fn_add) (inr (h_add_tool h));
    LibCall (index_as_query_engine (h_index h)) (inr (h_query_engine h));
    LibCall (QueryEngineTool_from_defaults (h_query_engine h)
               budget_tool_name budget_tool_description)
            (inr (h_budget_tool h));
    Print (PyObj (h_budget_tool h));
    Print (PyStr "Initialize and Get ReAct Agent for Chat...");
    LibCall (ReActAgent_from_tools
               [h_multiply_tool h; h_add_tool h; h_budget_tool h] true)
            (inr (h_agent h));
    LibCall (agent_chat (h_agent h) chat_message) (inr (h_response h)) ].

(** The steps of the workflow.  Each is identified with the library call
    that completes it; the calls that only prepare an argument for another
    call (the LLM and embedding-model constructors, the AWS client, the
    directory reader, the storage context, the query engine) belong to the
    step they prepare. *)
Inductive Step : Type :=
| step_load_env
| step_load_docs
| step_connect_store
| step_build_index
| step_build_tool
| step_build_agent
| step_chat.

Definition step_of (ev : Event Obj Exc) : option Step :=
  match ev with
  | LibCall load_dotenv _ => Some step_load_env
  | LibCall (reader_load_data _) _ => Some step_load_docs
  | LibCall (ElasticsearchStore _ _ _ _) _ => Some step_connect_store
  | LibCall (VectorStoreIndex_from_documents _ _ _) _ => Some step_build_index
  | LibCall (FunctionTool_from_defaults _) _ => Some step_build_tool
  | LibCall (QueryEngineTool_from_defaults _ _ _) _ => Some step_build_tool
  | LibCall (ReActAgent_from_tools _ _) _ => Some step_build_agent
  | LibCall (agent_chat _ _) _ => Some step_chat
  | _ => None
  end.

Definition workflow (evs : list (Event Obj Exc)) : list Step :=
  omap step_of evs.

(** Some chat query returns a response that the notebook prints later. *)
Definition prints_response_after_chat (evs : list (Event Obj Exc)) : Prop :=
  exists pre agent message response post,
    evs = pre ++ LibCall (agent_chat agent message) (inr response) :: post
    /\ In (Print (PyObj response)) post.

(** The variables read with [os.getenv], in order. *)
Definition env_reads (evs : list (Event Obj Exc)) : list string :=
  omap (fun ev => match ev with Getenv n _ => Some n | _ => None end) evs.

(** The agent constructions of a log: tools, verbosity and outcome. *)
Definition agent_calls (evs : list (Event Obj Exc))
  : list (list Obj * bool * (Exc + Obj)) :=
  omap (fun ev =>
          match ev with
          | LibCall (ReActAgent_from_tools tools verbose) r =>
              Some (tools, verbose, r)
          | _ => None
          end) evs.

(** The directory readers of a log: folder and extension filter. *)
Definition reader_calls (evs : list (Event Obj Exc))
  : list (string * list string) :=
  omap (fun ev =>
          match ev with
          | LibCall (SimpleDirectoryReader input_dir required_exts) _ =>
              Some (input_dir, required_exts)
          | _ => None
          end) evs.

(** No library call raised. *)
Definition quiet (evs : list (Event Obj Exc)) : Prop :=
  Forall (fun ev => failed ev = false) evs.

(** An outcome is faithful to a log when an exception is the one of the
    last event, a raising library call, and no earlier call raised. *)
Definition propagated {A} (r : Exc + A) (evs : list (Event Obj Exc)) : Prop :=
  match r with
  | inl e => exists pre c, evs = pre ++ [LibCall c (inl e)] /\ quiet pre
  | inr _ => quiet evs
  end.

(** What a computation adds to the log satisfies [Q]. *)
Definition Logs {A} (Q : Exc + A -> list (Event Obj Exc) -> Prop)
    (m : @M Obj Exc A) : Prop :=
  forall st, exists evs,
    trace (snd (m st)) = trace st ++ evs /\ Q (fst (m st)) evs.

Definition Propagates {A} (m : @M Obj Exc A) : Prop := Logs propagated m.

Definition ReadsWithin {A} (names : list string) (m : @M Obj Exc A) : Prop :=
  Logs (fun _ evs => incl (env_reads evs) names) m.

(** A computation leaves an observation of the state as it found it. *)
Definition Keeps {A X} (f : State Obj Exc -> X) (m : @M Obj Exc A) : Prop :=
  forall st, f (snd (m st)) = f st.

(** The argument of the [ElasticsearchStore] constructor that
    [initialize_elasticsearch] fills from the variable [name]. *)
Definition forwarded_argument (name : string) (c : Call Obj)
  : option (option string) :=
  match c with
  | ElasticsearchStore index_name es_url es_user es_password =>
      if String.eqb name "ELASTIC_HOST" then Some es_url
      else if String.eqb name "ELASTIC_USERNAME" then Some es_user
      else if String.eqb name "ELASTIC_PASSWORD" then Some es_password
      else if String.eqb name "INDEX_NAME" then Some index_name
      else None
  | _ => None
  end.

End Observations.

Arguments Handles : clear implicits.

(** The variables [initialize_elasticsearch] reads. *)
Definition elastic_variables : list string :=
  [ "ELASTIC_HOST"; "ELASTIC_USERNAME"; "ELASTIC_PASSWORD"; "INDEX_NAME" ].

(** The environment variables the notebook names. *)
Definition config_variables : list string :=
  [ "ELASTIC_HOST"; "ELASTIC_USERNAME"; "ELASTIC_PASSWORD"; "INDEX_NAME";
    "AWS_BEDROCK_EMBEDDING_MODEL"; "AWS_BEDROCK_LLM_MODEL" ].

(** ** Concrete libraries to run the model on *)

Module Demo.

Definition dotenv_file : gmap string string :=
  list_to_map
    [ ("ELASTIC_HOST", "http://localhost:9200");
      ("ELASTIC_USERNAME", "elastic");
      ("ELASTIC_PASSWORD", "changeme");
      ("INDEX_NAME", "budget");
      ("AWS_BEDROCK_EMBEDDING_MODEL", "amazon.titan-embed-text-v1");
      ("AWS_BEDROCK_LLM_MODEL", "anthropic.claude-v2") ].

(** Handles are numbers; a call returns the number of events so far, so
    every object is distinct. *)
Definition fresh (st : State nat string) : nat := length (trace st).

(** Every call returns; [load_dotenv()] adds the variables of the file
    that are not set yet. *)
Definition demo_lib : Library nat string :=
  {| lib_call st c := inr (fresh st);
     lib_dotenv st := union (environ st) dotenv_file |}.

(** The search engine cannot be reached. *)
Definition offline_lib : Library nat string :=
  {| lib_call st c :=
       match c with
       | ElasticsearchStore _ _ _ _ => inl "ConnectionError"
       | _ => inr (fresh st)
       end;
     lib_dotenv st := union (environ st) dotenv_file |}.

(** A fresh interpreter with an empty environment. *)
Definition initial : State nat string := mkState empty None None [].

End Demo.

(** ** More vocabulary for the arithmetic helpers *)

(** [-a] on floats. *)
Definition float_neg (a : float) : float := SFopp a.

(** The literal [1.0]. *)
Definition float_one : float := of_Z 1.

Definition is_zero (a : float) : bool :=
  match a with S754_zero _ => true | _ => false end.

(** Two infinities of opposite sign. *)
Definition opposite_infinities (a b : float) : bool :=
  match a, b with
  | S754_infinity sa, S754_infinity sb => xorb sa sb
  | _, _ => false
  end.

(** A zero and an infinity, in either order. *)
Definition zero_times_infinity (a b : float) : bool :=
  match a, b with
  | S754_zero _, S754_infinity _ | S754_infinity _, S754_zero _ => true
  | _, _ => false
  end.

(** ** More vocabulary for the runs of the cell *)

Section RunShapes.

Context {Obj Exc : Type}.

(** The objects [Settings.llm] and [Settings.embed_model] are built from:
    what the two model constructors returned, in order. *)
Definition llm_models (evs : list (Event Obj Exc)) : list Obj :=
  omap (fun ev =>
          match ev with
          | LibCall (Bedrock _ _ _) (inr o) => Some o
          | _ => None
          end) evs.

Definition embedding_models (evs : list (Event Obj Exc)) : list Obj :=
  omap (fun ev =>
          match ev with
          | LibCall (BedrockEmbedding _ _) (inr o) => Some o
          | _ => None
          end) evs.

(** The assignments to [Settings] that the notebook's own statements make,
    in order: the field and the object assigned. *)
Definition settings_writes (evs : list (Event Obj Exc))
  : list (SettingsField * Obj) :=
  omap (fun ev =>
          match ev with
          | Assign field value => Some (field, value)
          | _ => None
          end) evs.

(** [load_dotenv()] returned. *)
Definition dotenv_returned (evs : list (Event Obj Exc)) : bool :=
  existsb (fun ev =>
             match ev with
             | LibCall load_dotenv (inr _) => true
             | _ => false
             end) evs.

(** The progress messages printed, in order. *)
Definition printed_messages (evs : list (Event Obj Exc)) : list string :=
  omap (fun ev => match ev with Print (PyStr s) => Some s | _ => None end) evs.

(** The progress message the cell prints before it makes a call, by the
    place of the call in the cell; the first two calls come before any
    message. *)
Definition phase_message (c : Call Obj) : option string :=
  match c with
  | load_dotenv | Bedrock _ _ _ => None
  | SimpleDirectoryReader _ _ | reader_load_data _ =>
      Some "Loading documents..."
  | ElasticsearchStore _ _ _ _ =>
      Some "Initializing OpenSearch..."
  | boto3_client _ | BedrockEmbedding _ _ | StorageContext_from_defaults _
  | VectorStoreIndex_from_documents _ _ _ =>
      Some "Creating index and storing embeddings..."
  | FunctionTool_from_defaults _ | index_as_query_engine _
  | QueryEngineTool_from_defaults _ _ _ =>
      Some "Get Basic Maths Functions and Query Engine Tools..."
  | ReActAgent_from_tools _ _ | agent_chat _ _ =>
      Some "Initialize and Get ReAct Agent for Chat..."
  end.

(** An [os.getenv] event read its value from [env]. *)
Definition reads_from (env : gmap string string) (ev : Event Obj Exc) : Prop :=
  match ev with
  | Getenv name value => value = env !! name
  | _ => True
  end.

(** The index constructions, query-engine constructions and chat queries
    of a log, with their arguments. *)
Definition index_calls (evs : list (Event Obj Exc)) : list (Obj * Obj * bool) :=
  omap (fun ev =>
          match ev with
          | LibCall (VectorStoreIndex_from_documents d sc p) _ => Some (d, sc, p)
          | _ => None
          end) evs.

Definition query_engine_calls (evs : list (Event Obj Exc)) : list Obj :=
  omap (fun ev =>
          match ev with
          | LibCall (index_as_query_engine i) _ => Some i
          | _ => None
          end) evs.

Definition chat_calls (evs : list (Event Obj Exc)) : list (Obj * string) :=
  omap (fun ev =>
          match ev with
          | LibCall (agent_chat a m) _ => Some (a, m)
          | _ => None
          end) evs.

(** The shape of a run of the execution-flow cell from the state [st0]:
    [load_dotenv()] raised and nothing else happened; or the run followed
    the complete sequence up to a library call, the [n]-th event, that
    raised instead of returning; or the run is complete.  In each case the
    globals are what the assignments made so far left. *)
Definition run_shape (lib : Library Obj Exc) (st0 : State Obj Exc)
    (r : Exc + Obj) (evs : list (Event Obj Exc)) (st1 : State Obj Exc) : Prop :=
  (exists e,
      r = inl e
      /\ evs = [LibCall load_dotenv (inl e)]
      /\ globals st1 = globals st0)
  \/ (exists h e n c x,
        r = inl e
        /\ (0 <? n)%nat = true
        /\ linear_trace (Exc:=Exc) (lib_dotenv lib st0) h !! n
           = Some (LibCall c (inr x))
        /\ evs = take n (linear_trace (lib_dotenv lib st0) h)
                 ++ [LibCall c (inl e)]
        /\ globals st1 =
             (lib_dotenv lib st0,
              if (3 <? n)%nat then Some (h_llm h) else Settings_llm st0,
              if (19 <? n)%nat then Some (h_bedrock_embedding_model h)
              else Settings_embed_model st0))
  \/ (exists h,
        r = inr (h_response h)
        /\ evs = linear_trace (lib_dotenv lib st0) h
        /\ globals st1 =
             (lib_dotenv lib st0, Some (h_llm h),
              Some (h_bedrock_embedding_model h))).

End RunShapes.

(** The nine workflow steps of a complete run. *)
Definition workflow_steps : list Step :=
  [ step_load_env; step_load_docs; step_connect_store; step_build_index;
    step_build_tool; step_build_tool; step_build_tool; step_build_agent;
    step_chat ].

Module MoreDemo.

Import Demo.

(** The model provider refuses the embedding requests of the indexing. *)
Definition quota_lib : Library nat string :=
  {| lib_call st c :=
       match c with
       | VectorStoreIndex_from_documents _ _ _ => inl "ThrottlingException"
       | _ => inr (fresh st)
       end;
     lib_dotenv st := union (environ st) dotenv_file |}.

End MoreDemo.

(** * Properties *)

(** ** Rounding never produces NaN *)

Section Rounding.

Variables p_ e_ : Z.

Lemma shr_1_nonneg mrs : 0 <= shr_m mrs -> 0 <= shr_m (shr_1 mrs).
Proof.
  destruct mrs as [m r s]; simpl.
  destruct m as [|q|q]; simpl; [lia| |lia].
  destruct q; simpl; lia.
Qed.

Lemma iter_shr_1_nonneg n : forall mrs,
  0 <= shr_m mrs -> 0 <= shr_m (SpecFloat.iter_pos shr_1 n mrs).
Proof.
  induction n as [n IH|n IH|]; intros mrs H; simpl.
  - apply IH, IH, shr_1_nonneg, H.
  - apply IH, IH, H.
  - apply shr_1_nonneg, H.
Qed.

Lemma shr_record_of_loc_m m l : shr_m (shr_record_of_loc m l) = m.
Proof. destruct l as [|[]]; reflexivity. Qed.

Lemma shr_fexp_nonneg m e l :
  0 <= m -> 0 <= shr_m (fst (shr_fexp p_ e_ m e l)).
Proof.
  intros H. unfold shr_fexp, shr.
  destruct (fexp p_ e_ (Zdigits2 m + e) - e) as [|q|q]; simpl;
    rewrite ?shr_record_of_loc_m; try assumption.
  apply iter_shr_1_nonneg. now rewrite shr_record_of_loc_m.
Qed.

Lemma round_nearest_even_nonneg m l : 0 <= m -> 0 <= round_nearest_even m l.
Proof.
  intros H. unfold round_nearest_even.
  destruct l as [|[]]; try lia. destruct (Z.even m); lia.
Qed.

Lemma binary_round_aux_not_nan s m e l :
  0 <= m -> is_nan (binary_round_aux p_ e_ s m e l) = false.
Proof.
  intros H. unfold binary_round_aux.
  pose proof (shr_fexp_nonneg m e l H) as H1.
  destruct (shr_fexp p_ e_ m e l) as [mrs' e']. simpl in H1.
  pose proof (shr_fexp_nonneg _ e' loc_Exact
                (round_nearest_even_nonneg _ (loc_of_shr_record mrs') H1)) as H2.
  destruct (shr_fexp p_ e_ (round_nearest_even _ _) e' loc_Exact) as [mrs'' e''].
  simpl in H2. destruct (shr_m mrs'') as [|q|q]; [reflexivity| |lia].
  destruct (e'' <=? e_ - p_)%Z; reflexivity.
Qed.

Lemma binary_round_not_nan s m e :
  is_nan (binary_round p_ e_ s m e) = false.
Proof.
  unfold binary_round. destruct (shl_align _ _ _) as [mz ez].
  apply binary_round_aux_not_nan. lia.
Qed.

Lemma binary_normalize_not_nan m e sz :
  is_nan (binary_normalize p_ e_ m e sz) = false.
Proof. destruct m; simpl; auto using binary_round_not_nan. Qed.

Lemma SFadd_comm a b : SFadd p_ e_ a b = SFadd p_ e_ b a.
Proof.
  destruct a as [sa|sa| |sa ma ea], b as [sb|sb| |sb mb eb]; try reflexivity.
  - destruct sa, sb; reflexivity.
  - destruct sa, sb; reflexivity.
  - simpl. rewrite (Z.min_comm eb ea). f_equal. apply Z.add_comm.
Qed.

Lemma SFmul_comm a b : SFmul p_ e_ a b = SFmul p_ e_ b a.
Proof.
  destruct a as [sa|sa| |sa ma ea], b as [sb|sb| |sb mb eb]; simpl;
    rewrite ?(xorb_comm sb sa); try reflexivity.
  now rewrite (Pos.mul_comm mb ma), (Z.add_comm eb ea).
Qed.

End Rounding.

(** ** The arithmetic helpers *)

Lemma float_eq_refl a : float_eq a a = negb (is_nan a).
Proof.
  destruct a as [s|s| |s m e]; unfold float_eq, SFeqb; simpl; try reflexivity.
  - destruct s; reflexivity.
  - destruct s; rewrite Z.compare_refl, Pos.compare_cont_refl; reflexivity.
Qed.

Lemma add_real_not_nan a b :
  is_real a = true -> is_real b = true -> is_nan (add a b) = false.
Proof.
  unfold add, float_add.
  destruct a as [sa|sa| |sa ma ea], b as [sb|sb| |sb mb eb];
    try discriminate; intros _ _; try reflexivity.
  - destruct sa, sb; reflexivity.
  - apply binary_normalize_not_nan.
Qed.

Lemma multiply_real_not_nan a b :
  is_real a = true -> is_real b = true -> is_nan (multiply a b) = false.
Proof.
  unfold multiply, float_mul.
  destruct a as [sa|sa| |sa ma ea], b as [sb|sb| |sb mb eb];
    try discriminate; intros _ _; try reflexivity.
  apply binary_round_aux_not_nan. lia.
Qed.

Example add_1_2 : add (of_Z 1) (of_Z 2) = of_Z 3.
Proof. reflexivity. Qed.

Example multiply_3_minus_4 : multiply (of_Z 3) (of_Z (-4)) = of_Z (-12).
Proof. reflexivity. Qed.

(** Zero: [a + 0.0] is [a] and [a * 0.0] is a zero, for every real [a]. *)
Lemma add_zero_r a s :
  is_real a = true -> float_eq (add a (S754_zero s)) a = true.
Proof.
  destruct a as [sa|sa| |sa ma ea]; try discriminate; intros _.
  - destruct sa, s; reflexivity.
  - unfold add, float_add. cbn [SFadd]. now rewrite float_eq_refl.
Qed.

Lemma multiply_zero_r a s :
  is_real a = true -> float_eq (multiply a (S754_zero s)) pos_zero = true.
Proof. destruct a as [sa|sa| |sa ma ea]; try discriminate; reflexivity. Qed.

(** Negative numbers: [a + (-a)] is [0.0]. *)
Lemma add_opp_r s m e :
  add (S754_finite s m e) (S754_finite (negb s) m e) = pos_zero.
Proof.
  unfold add, float_add. cbn [SFadd]. rewrite Z.min_id.
  unfold shl_align. rewrite Z.sub_diag. cbn [fst].
  destruct s; cbn [negb cond_Zopp];
    rewrite ?Z.add_opp_diag_l, ?Z.add_opp_diag_r; reflexivity.
Qed.

(** Precision: [0.1 + 0.2] is [0.30000000000000004], not [0.3], and
    [2.0**1023 * 10.0] overflows to infinity. *)
Example add_tenth_fifth :
  add tenth fifth = S754_finite false 5404319552844596 (-54)
  /\ float_eq (add tenth fifth) three_tenths = false
  /\ float_eq (add tenth fifth) (float_add tenth fifth) = true.
Proof. repeat split; reflexivity. Qed.

Example multiply_overflows :
  well_formed (of_scaled 1 1023) = true
  /\ multiply (of_scaled 1 1023) (of_Z 10) = pos_inf
  /\ float_eq (multiply (of_scaled 1 1023) (of_Z 10))
              (float_mul (of_scaled 1 1023) (of_Z 10)) = true.
Proof. repeat split; reflexivity. Qed.

(** C1.  For all floats [a] and [b] that are real numbers, the comparisons
    [add(a, b) == a + b] and [multiply(a, b) == a * b] evaluate to [True]:
    each helper returns the float its operator computes, and that float,
    never being NaN, is equal to itself.  Zeros, negative numbers and
    inexact sums are covered. *)
Theorem add_multiply_agree_with_operators (a b : float) :
  is_real a = true -> is_real b = true ->
  float_eq (add a b) (float_add a b) = true
  /\ float_eq (multiply a b) (float_mul a b) = true.
Proof.
  intros Ha Hb. split.
  - fold (add a b). now rewrite float_eq_refl, add_real_not_nan.
  - fold (multiply a b). now rewrite float_eq_refl, multiply_real_not_nan.
Qed.

Lemma add_multiply_agree_with_operators_witness :
  float_eq (add tenth (of_Z (-2))) (float_add tenth (of_Z (-2))) = true
  /\ float_eq (multiply tenth (of_Z (-2))) (float_mul tenth (of_Z (-2))) = true.
Proof.
  apply (add_multiply_agree_with_operators tenth (of_Z (-2))); reflexivity.
Defined.

Lemma add_comm_float a b : add a b = add b a.
Proof. apply SFadd_comm. Qed.

Lemma multiply_comm_float a b : multiply a b = multiply b a.
Proof. apply SFmul_comm. Qed.

(** On real numbers the comparison of the two argument orders holds. *)
Lemma commute_eq_real (a b : float) :
  is_real a = true -> is_real b = true ->
  float_eq (add a b) (add b a) = true
  /\ float_eq (multiply a b) (multiply b a) = true.
Proof.
  intros Ha Hb.
  rewrite <- (add_comm_float a b), <- (multiply_comm_float a b).
  now rewrite !float_eq_refl, add_real_not_nan, multiply_real_not_nan.
Qed.

(** Without the restriction to real numbers the comparison can fail. *)
Example add_infinities_not_equal :
  float_eq (add pos_inf neg_inf) (float_add pos_inf neg_inf) = false.
Proof. reflexivity. Qed.

(** C9, as stated, fails: [inf + (-inf)] is NaN in both orders, and
    NaN [==] NaN is [False]; so is [0.0 * inf]. *)
Lemma commute_eq_fails_on_nan :
  float_eq (add pos_inf neg_inf) (add neg_inf pos_inf) = false
  /\ float_eq (multiply pos_zero pos_inf) (multiply pos_inf pos_zero) = false.
Proof. split; reflexivity. Qed.

(** C9, amended.  For every pair of floats, [add] and [multiply] return the
    same float in both argument orders; the comparison [==] of the two
    results is [True] exactly when that result is not NaN, in particular
    for all real numbers. *)
Theorem add_multiply_commute (a b : float) :
  add a b = add b a
  /\ multiply a b = multiply b a
  /\ float_eq (add a b) (add b a) = negb (is_nan (add a b))
  /\ float_eq (multiply a b) (multiply b a) = negb (is_nan (multiply a b))
  /\ (is_real a = true -> is_real b = true ->
      float_eq (add a b) (add b a) = true
      /\ float_eq (multiply a b) (multiply b a) = true).
Proof.
  repeat apply conj.
  - apply add_comm_float.
  - apply multiply_comm_float.
  - rewrite <- (add_comm_float a b). apply float_eq_refl.
  - rewrite <- (multiply_comm_float a b). apply float_eq_refl.
  - apply commute_eq_real.
Qed.

Lemma add_multiply_commute_witness :
  float_eq (add tenth (of_Z (-2))) (add (of_Z (-2)) tenth) = true
  /\ float_eq (multiply tenth (of_Z (-2))) (multiply (of_Z (-2)) tenth) = true.
Proof.
  destruct (add_multiply_commute tenth (of_Z (-2))) as (_ & _ & _ & _ & H).
  apply H; reflexivity.
Defined.

Example literals_well_formed :
  well_formed tenth = true /\ well_formed fifth = true
  /\ well_formed three_tenths = true /\ well_formed (of_Z (-2)) = true.
Proof. repeat split; reflexivity. Qed.

(** ** The monad *)

Section MonadFacts.

Context {Obj Exc : Type}.
Variable lib : Library Obj Exc.
Implicit Types (st : State Obj Exc) (c : Call Obj)
               (ev : Event Obj Exc) (evs : list (Event Obj Exc)).

Lemma bind_bind {A B C} (m : @M Obj Exc A) (k : A -> @M Obj Exc B) (k' : B -> @M Obj Exc C) st :
  bind (bind m k) k' st = bind m (fun a => bind (k a) k') st.
Proof. unfold bind. destruct (m st) as [[e|a] st']; reflexivity. Qed.

Lemma bind_ret {A B} (a : A) (k : A -> @M Obj Exc B) st :
  bind (ret a) k st = k a st.
Proof. reflexivity. Qed.

Lemma bind_call {B} c (k : Obj -> @M Obj Exc B) st :
  bind (call lib c) k st =
  match lib_call lib st c with
  | inl e => (inl e, log (LibCall c (inl e)) st)
  | inr o => k o (log (LibCall c (inr o)) st)
  end.
Proof. unfold bind, call. destruct (lib_call lib st c); reflexivity. Qed.

Lemma bind_load_dotenv {B} (k : Obj -> @M Obj Exc B) st :
  bind (call_load_dotenv lib) k st =
  match lib_call lib st load_dotenv with
  | inl e => (inl e, log (LibCall load_dotenv (inl e)) st)
  | inr o => k o (log (LibCall load_dotenv (inr o))
                      (set_environ (lib_dotenv lib st) st))
  end.
Proof.
  unfold bind, call_load_dotenv.
  destruct (lib_call lib st load_dotenv); reflexivity.
Qed.

Lemma bind_getenv {B} name (k : option string -> @M Obj Exc B) st :
  bind (getenv name) k st =
  k (environ st !! name) (log (Getenv name (environ st !! name)) st).
Proof. reflexivity. Qed.

Lemma bind_assign {B} f o (k : unit -> @M Obj Exc B) st :
  bind (assign f o) k st = k tt (log (Assign f o) (set_field f o st)).
Proof. reflexivity. Qed.

Lemma bind_print {B} v (k : unit -> @M Obj Exc B) st :
  bind (print v) k st = k tt (log (Print v) st).
Proof. reflexivity. Qed.

Lemma events_of_intro {A} (m : @M Obj Exc A) st evs :
  trace (snd (m st)) = trace st ++ evs -> events_of m st = evs.
Proof. unfold events_of. intros ->. apply drop_app_length. Qed.

Lemma agent_calls_In evs tools verbose r :
  In (LibCall (ReActAgent_from_tools tools verbose) r) evs ->
  In (tools, verbose, r) (agent_calls evs).
Proof.
  intros H. apply list_elem_of_In, list_elem_of_omap.
  eexists. split; [apply list_elem_of_In, H | reflexivity].
Qed.

Lemma reader_calls_In evs input_dir required_exts r :
  In (LibCall (SimpleDirectoryReader input_dir required_exts) r) evs ->
  In (input_dir, required_exts) (reader_calls evs).
Proof.
  intros H. apply list_elem_of_In, list_elem_of_omap.
  eexists. split; [apply list_elem_of_In, H | reflexivity].
Qed.

(** *** Rules for [Keeps] *)

Lemma Keeps_ret {A X} (f : State Obj Exc -> X) (a : A) : Keeps f (ret a).
Proof. intros st. reflexivity. Qed.

Lemma Keeps_bind {A B X} (f : State Obj Exc -> X) (m : @M Obj Exc A) (k : A -> @M Obj Exc B) :
  Keeps f m -> (forall a, Keeps f (k a)) -> Keeps f (bind m k).
Proof.
  intros Hm Hk st. unfold bind. specialize (Hm st).
  destruct (m st) as [[e|a] st']; simpl in *; [assumption|].
  now rewrite Hk.
Qed.

Lemma Keeps_call c : Keeps globals (call lib c).
Proof. intros st. reflexivity. Qed.

Lemma Keeps_getenv name : Keeps (@globals Obj Exc) (getenv name).
Proof. intros st. reflexivity. Qed.

Lemma Keeps_print v : Keeps (@globals Obj Exc) (print v).
Proof. intros st. reflexivity. Qed.

(** *** Rules for [Logs] *)

Lemma quiet_app evs1 evs2 : quiet evs1 -> quiet evs2 -> quiet (evs1 ++ evs2).
Proof. apply Forall_app_2. Qed.

Lemma Propagates_ret {A} (a : A) : Propagates (@ret Obj Exc A a).
Proof.
  intros st. exists []. split; [now rewrite app_nil_r | constructor].
Qed.

Lemma Propagates_bind {A B} (m : @M Obj Exc A) (k : A -> @M Obj Exc B) :
  Propagates m -> (forall a, Propagates (k a)) -> Propagates (bind m k).
Proof.
  intros Hm Hk st. unfold bind.
  destruct (Hm st) as (evs1 & Ht1 & H1).
  destruct (m st) as [[e|a] st1]; simpl in *.
  - exists evs1. split; assumption.
  - destruct (Hk a st1) as (evs2 & Ht2 & H2).
    exists (evs1 ++ evs2). split.
    + now rewrite Ht2, Ht1, app_assoc.
    + destruct (fst (k a st1)) as [e|b]; simpl in *.
      * destruct H2 as (pre & c & -> & Hq).
        exists (evs1 ++ pre), c. split; [now rewrite app_assoc|].
        now apply quiet_app.
      * now apply quiet_app.
Qed.

Lemma Propagates_call c : Propagates (call lib c).
Proof.
  intros st. exists [LibCall c (lib_call lib st c)].
  split; [reflexivity|]. unfold call; simpl.
  destruct (lib_call lib st c) as [e|o]; simpl.
  - exists [], c. split; [reflexivity | constructor].
  - repeat constructor.
Qed.

Lemma Propagates_load_dotenv : Propagates (call_load_dotenv lib).
Proof.
  intros st. exists [LibCall load_dotenv (lib_call lib st load_dotenv)].
  unfold call_load_dotenv.
  destruct (lib_call lib st load_dotenv) as [e|o]; simpl;
    (split; [reflexivity|]).
  - exists [], load_dotenv. split; [reflexivity | constructor].
  - repeat constructor.
Qed.

Lemma Propagates_getenv name : Propagates (@getenv Obj Exc name).
Proof.
  intros st. eexists. split; [reflexivity|]. repeat constructor.
Qed.

Lemma Propagates_assign f o : Propagates (@assign Obj Exc f o).
Proof.
  intros st. exists [Assign f o]. split; [|repeat constructor].
  destruct f; reflexivity.
Qed.

Lemma Propagates_print v : Propagates (@print Obj Exc v).
Proof.
  intros st. eexists. split; [reflexivity|]. repeat constructor.
Qed.

Lemma env_reads_app evs1 evs2 :
  env_reads (evs1 ++ evs2) = env_reads evs1 ++ env_reads evs2.
Proof. apply omap_app. Qed.

Lemma ReadsWithin_ret {A} names (a : A) : ReadsWithin names (@ret Obj Exc A a).
Proof.
  intros st. exists []. split; [now rewrite app_nil_r|]. intros n [].
Qed.

Lemma ReadsWithin_bind {A B} names (m : @M Obj Exc A) (k : A -> @M Obj Exc B) :
  ReadsWithin names m -> (forall a, ReadsWithin names (k a)) ->
  ReadsWithin names (bind m k).
Proof.
  intros Hm Hk st. unfold bind.
  destruct (Hm st) as (evs1 & Ht1 & H1).
  destruct (m st) as [[e|a] st1]; simpl in *.
  - exists evs1. split; assumption.
  - destruct (Hk a st1) as (evs2 & Ht2 & H2).
    exists (evs1 ++ evs2). split.
    + now rewrite Ht2, Ht1, app_assoc.
    + rewrite env_reads_app. now apply incl_app.
Qed.

Lemma ReadsWithin_call names c : ReadsWithin names (call lib c).
Proof.
  intros st. eexists. split; [reflexivity|]. intros n [].
Qed.

Lemma ReadsWithin_load_dotenv names : ReadsWithin names (call_load_dotenv lib).
Proof.
  intros st. exists [LibCall load_dotenv (lib_call lib st load_dotenv)].
  unfold call_load_dotenv.
  destruct (lib_call lib st load_dotenv) as [e|o]; simpl;
    (split; [reflexivity | intros n []]).
Qed.

Lemma ReadsWithin_getenv names name :
  In name names -> ReadsWithin names (@getenv Obj Exc name).
Proof.
  intros Hin st. eexists. split; [reflexivity|].
  intros n [<-|[]]. assumption.
Qed.

Lemma ReadsWithin_assign names f o : ReadsWithin names (@assign Obj Exc f o).
Proof.
  intros st. exists [Assign f o]. split; [|intros n []].
  destruct f; reflexivity.
Qed.

Lemma ReadsWithin_print names v : ReadsWithin names (@print Obj Exc v).
Proof.
  intros st. eexists. split; [reflexivity|]. intros n [].
Qed.

End MonadFacts.

(** Rule-directed proofs: a program is a tree of [bind]s over the
    primitives, and each property is closed under [bind]. *)

Ltac unfold_notebook :=
  unfold execution_flow, load_documents, initialize_elasticsearch,
         create_index, get_budget_tool, get_react_agent.

Ltac propagate :=
  repeat first
    [ apply Propagates_bind; [|intro]
    | apply Propagates_ret | apply Propagates_call
    | apply Propagates_load_dotenv | apply Propagates_getenv
    | apply Propagates_assign | apply Propagates_print ].

Ltac reads_within :=
  repeat first
    [ apply ReadsWithin_bind; [|intro]
    | apply ReadsWithin_ret | apply ReadsWithin_call
    | apply ReadsWithin_load_dotenv | apply ReadsWithin_assign
    | apply ReadsWithin_print
    | apply ReadsWithin_getenv; simpl; tauto ].

Ltac keeps_globals :=
  repeat first
    [ apply Keeps_bind; [|intro]
    | apply Keeps_ret | apply Keeps_call
    | apply Keeps_getenv | apply Keeps_print ].

(** Symbolic execution: one step rewrites the head of the program, branching
    on the outcome of a library call; states are kept in normal form. *)

Ltac state_norm :=
  cbn [environ trace Settings_llm Settings_embed_model
       log logs set_field set_environ].

Ltac exec_step lib :=
  lazymatch goal with
  | |- context [bind (bind _ _) _ _] => rewrite bind_bind
  | |- context [bind (ret _) _ _] => rewrite bind_ret
  | |- context [bind (getenv _) _ _] => rewrite bind_getenv; state_norm
  | |- context [bind (assign _ _) _ _] => rewrite bind_assign; state_norm
  | |- context [bind (print _) _ _] => rewrite bind_print; state_norm
  | |- context [bind (call lib _) _ ?s] =>
      rewrite (bind_call lib);
      lazymatch goal with
      | |- context [match lib_call lib s ?c with _ => _ end] =>
          let E := fresh "E" in
          destruct (lib_call lib s c) as [?e|?o] eqn:E; clear E
      end;
      cbv beta iota; state_norm
  | |- context [bind (call_load_dotenv lib) _ ?s] =>
      rewrite (bind_load_dotenv lib);
      lazymatch goal with
      | |- context [match lib_call lib s ?c with _ => _ end] =>
          let E := fresh "E" in
          destruct (lib_call lib s c) as [?e|?o] eqn:E; clear E
      end;
      cbv beta iota; state_norm
  end.

Ltac exec lib := unfold_notebook; repeat exec_step lib.

Ltac trace_norm :=
  cbn [environ trace Settings_llm Settings_embed_model globals
       log logs set_field set_environ fst snd ret];
  rewrite <- ?app_assoc; cbn [app]; rewrite ?drop_app_length.

(** ** The functions of the notebook *)

Section NotebookFacts.

Context {Obj Exc : Type}.
Variable lib : Library Obj Exc.
Implicit Types (st : State Obj Exc) (c : Call Obj)
               (ev : Event Obj Exc) (evs : list (Event Obj Exc)).

(** What [load_documents] does, whatever the libraries answer. *)
Lemma load_documents_run pdf_folder st :
  exists first,
    events_of (load_documents lib pdf_folder) st =
      LibCall (SimpleDirectoryReader pdf_folder [".pdf"]) first ::
      match first with
      | inl _ => []
      | inr reader =>
          [LibCall (reader_load_data reader)
                   (outcome (load_documents lib pdf_folder) st)]
      end
    /\ match first with
       | inl e => outcome (load_documents lib pdf_folder) st = inl e
       | inr _ => True
       end.
Proof.
  unfold events_of, outcome. exec lib; trace_norm.
  - exists (inl e). split; reflexivity.
  - exists (inr o). split; reflexivity.
  - exists (inr o). split; reflexivity.
Qed.

(** What [initialize_elasticsearch] does, whatever the libraries answer. *)
Lemma initialize_elasticsearch_run st :
  events_of (initialize_elasticsearch lib) st =
    [ Getenv "ELASTIC_HOST" (environ st !! "ELASTIC_HOST");
      Getenv "ELASTIC_USERNAME" (environ st !! "ELASTIC_USERNAME");
      Getenv "ELASTIC_PASSWORD" (environ st !! "ELASTIC_PASSWORD");
      Getenv "INDEX_NAME" (environ st !! "INDEX_NAME");
      LibCall (ElasticsearchStore
                 (environ st !! "INDEX_NAME") (environ st !! "ELASTIC_HOST")
                 (environ st !! "ELASTIC_USERNAME")
                 (environ st !! "ELASTIC_PASSWORD"))
              (outcome (initialize_elasticsearch lib) st) ].
Proof.
  unfold events_of, outcome. exec lib; trace_norm; reflexivity.
Qed.

Lemma load_documents_keeps pdf_folder :
  Keeps globals (load_documents lib pdf_folder).
Proof. unfold_notebook. keeps_globals. Qed.

Lemma initialize_elasticsearch_keeps :
  Keeps globals (initialize_elasticsearch lib).
Proof. unfold_notebook. keeps_globals. Qed.

(** A run of the cell in which every library call returns. *)
Lemma execution_flow_success st resp :
  outcome (execution_flow lib) st = inr resp ->
  exists h,
    h_response h = resp
    /\ events_of (execution_flow lib) st = linear_trace (lib_dotenv lib st) h
    /\ globals (snd (execution_flow lib st)) =
         (lib_dotenv lib st, Some (h_llm h),
          Some (h_bedrock_embedding_model h)).
Proof.
  unfold events_of, outcome. exec lib; cbn [fst]; try discriminate.
  trace_norm. intros [= <-].
  exists (Build_Handles o o0 o1 o2 o3 o4 o5 o6 o7 o8 o9 o10 o11 o12 o13).
  repeat split.
Qed.

(** Every agent construction of a run, returning or not, is given the
    three tools built just before. *)
Lemma agent_construction st tools verbose r :
  In (LibCall (ReActAgent_from_tools tools verbose) r)
     (events_of (execution_flow lib) st) ->
  exists multiply_tool add_tool query_engine budget_tool,
    tools = [multiply_tool; add_tool; budget_tool]
    /\ verbose = true
    /\ In (LibCall (FunctionTool_from_defaults fn_multiply) (inr multiply_tool))
          (events_of (execution_flow lib) st)
    /\ In (LibCall (FunctionTool_from_defaults fn_add) (inr add_tool))
          (events_of (execution_flow lib) st)
    /\ In (LibCall (QueryEngineTool_from_defaults query_engine
                      budget_tool_name budget_tool_description)
                   (inr budget_tool))
          (events_of (execution_flow lib) st).
Proof.
  intros H. apply agent_calls_In in H. revert H.
  unfold events_of. exec lib; trace_norm;
    cbn [agent_calls omap list_omap In]; intros H;
    try contradiction; destruct H as [[= <- <- <-]|[]];
    exists o8, o9, o10, o11; simpl; tauto.
Qed.

Lemma execution_flow_propagates : Propagates (execution_flow lib).
Proof. unfold_notebook. propagate. Qed.

Lemma execution_flow_reads_within :
  ReadsWithin config_variables (execution_flow lib).
Proof. unfold_notebook. reads_within. Qed.

End NotebookFacts.

(** ** The claims about the glue code *)

Section Claims.

Context {Obj Exc : Type}.
Variable lib : Library Obj Exc.
Implicit Types (st : State Obj Exc) (c : Call Obj)
               (ev : Event Obj Exc) (evs : list (Event Obj Exc)).

(** When the only chat query of a log is its last event, nothing is
    printed after it. *)
Lemma chat_last_not_printed evs ev :
  existsb is_chat evs = false -> ~ prints_response_after_chat (evs ++ [ev]).
Proof.
  intros Hnc (pre & agent & message & response & post & Heq & Hin).
  revert pre Heq. induction evs as [|a evs IH]; intros pre Heq.
  - destruct pre as [|x pre]; simpl in Heq.
    + injection Heq as _ <-. destruct Hin.
    + injection Heq as _ Heq. destruct pre; discriminate Heq.
  - simpl in Hnc. apply orb_false_elim in Hnc as [Ha Hnc].
    destruct pre as [|x pre]; simpl in Heq; injection Heq as Hx Heq.
    + subst a. discriminate Ha.
    + now apply (IH Hnc pre).
Qed.

Lemma linear_trace_not_printed env (h : Handles Obj) :
  ~ prints_response_after_chat (@linear_trace Obj Exc env h).
Proof.
  unfold linear_trace.
  match goal with
  | |- ~ prints_response_after_chat ?l =>
      change l with (removelast l ++ [List.last l no_event])
  end.
  apply chat_last_not_printed. reflexivity.
Qed.

(** C2, amended.  A run of the execution-flow cell in which every library
    call returns performs exactly the events of [linear_trace], in that
    order: load the environment, configure the LLM, load the documents,
    connect to the vector store, build the index, build the three tools,
    build the agent, issue one chat query.  Each workflow step happens
    once, in order; the chat query is the last event, and its response is
    not printed. *)
Theorem execution_flow_sequence st resp :
  outcome (execution_flow lib) st = inr resp ->
  exists h,
    h_response h = resp
    /\ events_of (execution_flow lib) st = linear_trace (lib_dotenv lib st) h
    /\ workflow (events_of (execution_flow lib) st) =
         [ step_load_env; step_load_docs; step_connect_store;
           step_build_index; step_build_tool; step_build_tool;
           step_build_tool; step_build_agent; step_chat ]
    /\ List.last (events_of (execution_flow lib) st) no_event =
         LibCall (agent_chat (h_agent h) chat_message) (inr resp)
    /\ ~ prints_response_after_chat (events_of (execution_flow lib) st).
Proof.
  intros Hok. destruct (execution_flow_success lib st resp Hok)
    as (h & Hresp & Hevs & _).
  exists h. rewrite Hevs, <- Hresp. repeat split.
  apply linear_trace_not_printed.
Qed.

(** C4.  When a library call of a run raises [e], the run ends with the
    exception [e] itself, the raising call is the last event of the run,
    and no call before it raised: nothing is retried and nothing runs
    after the failure. *)
Theorem library_failure_propagates st c e :
  In (LibCall c (inl e)) (events_of (execution_flow lib) st) ->
  outcome (execution_flow lib) st = inl e
  /\ exists pre,
       events_of (execution_flow lib) st = pre ++ [LibCall c (inl e)]
       /\ quiet pre.
Proof.
  intros Hin.
  destruct (execution_flow_propagates lib st) as (evs & Ht & Hp).
  rewrite (events_of_intro _ _ _ Ht) in *. unfold outcome.
  destruct (fst (execution_flow lib st)) as [e'|r]; simpl in Hp.
  - destruct Hp as (pre & c' & -> & Hq).
    apply in_app_or in Hin as [Hin|[Heq|[]]].
    + apply (proj1 (List.Forall_forall _ _) Hq) in Hin. discriminate Hin.
    + injection Heq as -> ->. split; [reflexivity|]. now exists pre.
  - apply (proj1 (List.Forall_forall _ _) Hp) in Hin. discriminate Hin.
Qed.

(** C5.  [load_documents] first constructs the reader with the folder it
    was given and the extension filter [".pdf"]; if the constructor
    raises, so does [load_documents]; otherwise its outcome is the outcome
    of the reader's [load_data()], and it does nothing else.  A complete
    run of the cell constructs one reader, on ["./data"]. *)
Theorem load_documents_forwards pdf_folder st :
  (exists first,
      events_of (load_documents lib pdf_folder) st =
        LibCall (SimpleDirectoryReader pdf_folder [".pdf"]) first ::
        match first with
        | inl _ => []
        | inr reader =>
            [LibCall (reader_load_data reader)
                     (outcome (load_documents lib pdf_folder) st)]
        end
      /\ match first with
         | inl e => outcome (load_documents lib pdf_folder) st = inl e
         | inr _ => True
         end)
  /\ globals (snd (load_documents lib pdf_folder st)) = globals st
  /\ (forall resp,
         outcome (execution_flow lib) st = inr resp ->
         reader_calls (events_of (execution_flow lib) st)
         = [("./data", [".pdf"])]).
Proof.
  split; [apply load_documents_run|].
  split; [apply load_documents_keeps|].
  intros resp Hok.
  destruct (execution_flow_success lib st resp Hok) as (h & _ & -> & _).
  reflexivity.
Qed.

(** C6.  [initialize_elasticsearch] reads the four variables, then calls
    the constructor once with the four values as it read them (index name,
    host, user name, password); its outcome is the outcome of the
    constructor, and it changes nothing else. *)
Theorem initialize_elasticsearch_forwards st :
  events_of (initialize_elasticsearch lib) st =
    [ Getenv "ELASTIC_HOST" (environ st !! "ELASTIC_HOST");
      Getenv "ELASTIC_USERNAME" (environ st !! "ELASTIC_USERNAME");
      Getenv "ELASTIC_PASSWORD" (environ st !! "ELASTIC_PASSWORD");
      Getenv "INDEX_NAME" (environ st !! "INDEX_NAME");
      LibCall (ElasticsearchStore
                 (environ st !! "INDEX_NAME") (environ st !! "ELASTIC_HOST")
                 (environ st !! "ELASTIC_USERNAME")
                 (environ st !! "ELASTIC_PASSWORD"))
              (outcome (initialize_elasticsearch lib) st) ]
  /\ globals (snd (initialize_elasticsearch lib st)) = globals st.
Proof.
  split; [apply initialize_elasticsearch_run
         | apply initialize_elasticsearch_keeps].
Qed.

(** C7.  Every variable a run reads with [os.getenv] is one of the six
    configuration variables, and a run in which every library call returns
    reads each of the six, once. *)
Theorem environment_reads st :
  incl (env_reads (events_of (execution_flow lib) st)) config_variables
  /\ (forall resp,
         outcome (execution_flow lib) st = inr resp ->
         env_reads (events_of (execution_flow lib) st)
         = [ "AWS_BEDROCK_LLM_MODEL"; "ELASTIC_HOST"; "ELASTIC_USERNAME";
             "ELASTIC_PASSWORD"; "INDEX_NAME"; "AWS_BEDROCK_EMBEDDING_MODEL" ]
         /\ incl config_variables
                 (env_reads (events_of (execution_flow lib) st))).
Proof.
  split.
  - destruct (execution_flow_reads_within lib st) as (evs & Ht & Hincl).
    now rewrite (events_of_intro _ _ _ Ht).
  - intros resp Hok.
    destruct (execution_flow_success lib st resp Hok) as (h & _ & -> & _).
    split; [reflexivity|]. intros n Hn. simpl in *. tauto.
Qed.

(** C8.  Every agent construction of a run is given exactly three tools:
    the function tool built from [multiply], the function tool built from
    [add] and the query-engine tool, in that order; a run in which every
    library call returns constructs the agent once. *)
Theorem agent_gets_three_tools st :
  (forall tools verbose r,
      In (LibCall (ReActAgent_from_tools tools verbose) r)
         (events_of (execution_flow lib) st) ->
      exists multiply_tool add_tool query_engine budget_tool,
        tools = [multiply_tool; add_tool; budget_tool]
        /\ verbose = true
        /\ In (LibCall (FunctionTool_from_defaults fn_multiply)
                       (inr multiply_tool))
              (events_of (execution_flow lib) st)
        /\ In (LibCall (FunctionTool_from_defaults fn_add) (inr add_tool))
              (events_of (execution_flow lib) st)
        /\ In (LibCall (QueryEngineTool_from_defaults query_engine
                          budget_tool_name budget_tool_description)
                       (inr budget_tool))
              (events_of (execution_flow lib) st))
  /\ PyFn_call fn_multiply = multiply
  /\ PyFn_call fn_add = add
  /\ (forall resp,
         outcome (execution_flow lib) st = inr resp ->
         exists tools agent,
           agent_calls (events_of (execution_flow lib) st)
           = [(tools, true, inr agent)]).
Proof.
  split; [intros tools verbose r; apply agent_construction|].
  split; [reflexivity|]. split; [reflexivity|].
  intros resp Hok.
  destruct (execution_flow_success lib st resp Hok) as (h & _ & -> & _).
  eexists _, _. reflexivity.
Qed.

(** C10.  When one of the four variables is unset,
    [initialize_elasticsearch] still calls the constructor, with [None]
    as the corresponding argument, and its outcome is the outcome of that
    call: it raises only if the constructor does. *)
Theorem initialize_elasticsearch_does_not_validate st name :
  In name elastic_variables ->
  environ st !! name = None ->
  exists index_name es_url es_user es_password,
    In (LibCall (ElasticsearchStore index_name es_url es_user es_password)
                (outcome (initialize_elasticsearch lib) st))
       (events_of (initialize_elasticsearch lib) st)
    /\ forwarded_argument (Obj:=Obj) name
         (ElasticsearchStore index_name es_url es_user es_password)
       = Some None.
Proof.
  intros Hin Hnone. rewrite initialize_elasticsearch_run.
  do 4 eexists. split; [simpl; tauto|].
  simpl in Hin.
  destruct Hin as [<-|[<-|[<-|[<-|[]]]]]; simpl; now rewrite Hnone.
Qed.

End Claims.

(** ** Runs on the concrete libraries *)

Import Demo.

Example demo_run_succeeds :
  outcome (execution_flow demo_lib) initial = inr 30%nat.
Proof. vm_compute. reflexivity. Qed.

Example offline_run_fails :
  outcome (execution_flow offline_lib) initial = inl "ConnectionError"
  /\ workflow (events_of (execution_flow offline_lib) initial)
     = [step_load_env; step_load_docs; step_connect_store].
Proof. split; vm_compute; reflexivity. Qed.

(** C2, as stated, fails: in a complete run the chat query is the last
    event, and the response it returns is never printed. *)
Lemma response_not_printed :
  outcome (execution_flow demo_lib) initial = inr 30%nat
  /\ List.last (events_of (execution_flow demo_lib) initial) no_event
     = LibCall (agent_chat 29%nat chat_message) (inr 30%nat)
  /\ ~ prints_response_after_chat (events_of (execution_flow demo_lib) initial).
Proof.
  split; [exact demo_run_succeeds|].
  split; [vm_compute; reflexivity|].
  destruct (execution_flow_success demo_lib initial 30%nat demo_run_succeeds)
    as (h & _ & -> & _).
  apply linear_trace_not_printed.
Qed.

Lemma execution_flow_sequence_witness :
  exists h : Handles nat,
    h_response h = 30%nat
    /\ events_of (execution_flow demo_lib) initial
       = linear_trace (lib_dotenv demo_lib initial) h
    /\ workflow (events_of (execution_flow demo_lib) initial) =
         [ step_load_env; step_load_docs; step_connect_store;
           step_build_index; step_build_tool; step_build_tool;
           step_build_tool; step_build_agent; step_chat ]
    /\ List.last (events_of (execution_flow demo_lib) initial)
                 no_event
       = LibCall (agent_chat (h_agent h) chat_message) (inr 30%nat)
    /\ ~ prints_response_after_chat
         (events_of (execution_flow demo_lib) initial).
Proof.
  apply (execution_flow_sequence demo_lib initial 30%nat).
  vm_compute. reflexivity.
Defined.

(** C3, as stated, fails: [create_index] assigns [Settings.embed_model],
    which the steps after it find changed. *)
Lemma create_index_writes_settings :
  Settings_embed_model initial = None
  /\ Settings_embed_model (snd (create_index demo_lib 6%nat 13%nat initial))
     = Some 2%nat
  /\ globals (snd (create_index demo_lib 6%nat 13%nat initial))
     <> globals initial.
Proof.
  split; [reflexivity|]. split; [vm_compute; reflexivity|].
  intros H. apply (f_equal snd) in H. vm_compute in H. discriminate H.
Qed.

(** So does the cell itself, which assigns [Settings.llm]. *)
Example execution_flow_writes_settings :
  Settings_llm (snd (execution_flow demo_lib initial)) = Some 2%nat
  /\ Settings_embed_model (snd (execution_flow demo_lib initial))
     = Some 18%nat
  /\ environ (snd (execution_flow demo_lib initial)) !! "INDEX_NAME"
     = Some "budget".
Proof. repeat split; vm_compute; reflexivity. Qed.

(** A program with a handler would not have the property of C4: the
    failure is swallowed and a fallback value returned. *)
Example try_except_swallows :
  outcome (try_except (call offline_lib (ElasticsearchStore None None None None))
                      (fun _ => ret 0%nat))
          initial
  = inr 0%nat
  /\ ~ Propagates (try_except
                     (call offline_lib (ElasticsearchStore None None None None))
                     (fun _ => ret 0%nat)).
Proof.
  split; [reflexivity|].
  intros H. destruct (H initial) as (evs & Ht & Hq).
  vm_compute in Ht. subst evs.
  assert (Hq' : quiet [LibCall (ElasticsearchStore (Obj:=nat) None None None None)
                               (inl "ConnectionError")]) by exact Hq.
  inversion Hq' as [|ev evs Hf _]. discriminate Hf.
Qed.

Lemma library_failure_propagates_witness :
  outcome (execution_flow offline_lib) initial = inl "ConnectionError"
  /\ exists pre,
       events_of (execution_flow offline_lib) initial =
         pre ++ [LibCall (ElasticsearchStore
                            (Some "budget") (Some "http://localhost:9200")
                            (Some "elastic") (Some "changeme"))
                         (inl "ConnectionError")]
       /\ quiet pre.
Proof.
  apply (library_failure_propagates offline_lib initial).
  vm_compute. repeat first [left; reflexivity | right].
Defined.

Lemma load_documents_forwards_witness :
  reader_calls (events_of (execution_flow demo_lib) initial)
  = [("./data", [".pdf"])].
Proof.
  apply (proj2 (proj2 (load_documents_forwards demo_lib "./data" initial))
               30%nat).
  vm_compute. reflexivity.
Defined.

Lemma environment_reads_witness :
  env_reads (events_of (execution_flow demo_lib) initial)
  = [ "AWS_BEDROCK_LLM_MODEL"; "ELASTIC_HOST"; "ELASTIC_USERNAME";
      "ELASTIC_PASSWORD"; "INDEX_NAME"; "AWS_BEDROCK_EMBEDDING_MODEL" ]
  /\ incl config_variables
          (env_reads (events_of (execution_flow demo_lib) initial)).
Proof.
  apply (proj2 (environment_reads demo_lib initial) 30%nat).
  vm_compute. reflexivity.
Defined.

Lemma agent_gets_three_tools_witness :
  exists multiply_tool add_tool query_engine budget_tool : nat,
    [23; 24; 26]%nat = [multiply_tool; add_tool; budget_tool]
    /\ true = true
    /\ In (LibCall (FunctionTool_from_defaults fn_multiply)
                   (inr multiply_tool))
          (events_of (execution_flow demo_lib) initial)
    /\ In (LibCall (FunctionTool_from_defaults fn_add) (inr add_tool))
          (events_of (execution_flow demo_lib) initial)
    /\ In (LibCall (QueryEngineTool_from_defaults query_engine
                      budget_tool_name budget_tool_description)
                   (inr budget_tool))
          (events_of (execution_flow demo_lib) initial).
Proof.
  apply (proj1 (agent_gets_three_tools demo_lib initial)
               [23; 24; 26]%nat true (inr 29%nat)).
  vm_compute. repeat first [left; reflexivity | right].
Defined.

Lemma initialize_elasticsearch_does_not_validate_witness :
  exists index_name es_url es_user es_password,
    In (LibCall (ElasticsearchStore index_name es_url es_user es_password)
                (outcome (initialize_elasticsearch demo_lib) initial))
       (events_of (initialize_elasticsearch demo_lib) initial)
    /\ forwarded_argument (Obj:=nat) "ELASTIC_PASSWORD"
         (ElasticsearchStore index_name es_url es_user es_password)
       = Some None.
Proof.
  apply (initialize_elasticsearch_does_not_validate demo_lib initial
           "ELASTIC_PASSWORD").
  - simpl. tauto.
  - reflexivity.
Defined.

Example initialize_elasticsearch_unset :
  events_of (initialize_elasticsearch demo_lib) initial =
    [ Getenv "ELASTIC_HOST" None; Getenv "ELASTIC_USERNAME" None;
      Getenv "ELASTIC_PASSWORD" None; Getenv "INDEX_NAME" None;
      LibCall (ElasticsearchStore None None None None) (inr 4%nat) ]
  /\ outcome (initialize_elasticsearch demo_lib) initial = inr 4%nat.
Proof. split; vm_compute; reflexivity. Qed.

(** ** More on the arithmetic helpers *)

(** X1.  [add] returns NaN exactly when an argument is NaN or the arguments
    are infinities of opposite sign. *)
Theorem add_is_nan_exactly_when (a b : float) :
  is_nan (add a b) = is_nan a || is_nan b || opposite_infinities a b.
Proof.
  destruct a as [sa|sa| |sa ma ea], b as [sb|sb| |sb mb eb]; try reflexivity.
  - destruct sa, sb; reflexivity.
  - destruct sa, sb; reflexivity.
  - apply binary_normalize_not_nan.
Qed.

(** X2.  [multiply] returns NaN exactly when an argument is NaN or one
    argument is a zero and the other an infinity. *)
Theorem multiply_is_nan_exactly_when (a b : float) :
  is_nan (multiply a b) = is_nan a || is_nan b || zero_times_infinity a b.
Proof.
  destruct a as [sa|sa| |sa ma ea], b as [sb|sb| |sb mb eb]; try reflexivity.
  apply binary_round_aux_not_nan. lia.
Qed.

Lemma add_zero_r_exact a s :
  add a (S754_zero s)
  = match a with S754_zero sa => S754_zero (sa && s) | _ => a end.
Proof.
  destruct a as [sa|sa| |sa ma ea]; try reflexivity.
  destruct sa, s; reflexivity.
Qed.

(** X3.  Adding a zero, on either side, to an argument that is not NaN
    returns that argument unchanged; only the sum of two zeros has a sign of
    its own (negative when both are). *)
Theorem add_zero_identity (a : float) (s : bool) :
  is_nan a = false ->
  add a (S754_zero s)
  = match a with S754_zero sa => S754_zero (sa && s) | _ => a end
  /\ add (S754_zero s) a
     = match a with S754_zero sa => S754_zero (sa && s) | _ => a end.
Proof.
  intros _. split; [|rewrite add_comm_float]; apply add_zero_r_exact.
Qed.

Lemma add_zero_identity_witness :
  add tenth (S754_zero true) = tenth /\ add (S754_zero true) tenth = tenth.
Proof. apply (add_zero_identity tenth true). reflexivity. Defined.

Lemma multiply_one_finite s m e :
  bounded prec emax m e = true ->
  multiply (S754_finite s m e) float_one = S754_finite s m e.
Proof.
  intros Hb. unfold bounded, canonical_mantissa in Hb.
  apply andb_true_iff in Hb as [Hc He].
  apply Z.eqb_eq in Hc. apply Z.leb_le in He.
  unfold multiply, float_mul.
  change float_one with (S754_finite false 4503599627370496 (-52)).
  cbn [SFmul]. rewrite xorb_false_r, Pos.mul_comm.
  let t := eval cbv in (4503599627370496 * m)%positive in
    change (4503599627370496 * m)%positive with t.
  unfold binary_round_aux, shr_fexp.
  cbn [Zdigits2 digits2_pos shr_record_of_loc].
  rewrite !Pos2Z.inj_succ.
  replace (fexp prec emax _ - (e + -52)) with 52.
  2:{ unfold fexp in *. unfold emin, prec, emax in *. lia. }
  cbn [shr SpecFloat.iter_pos shr_1 orb shr_m loc_of_shr_record
       round_nearest_even fst snd].
  replace (e + -52 + 52) with e by lia.
  cbn [Zdigits2]. rewrite Hc, Z.sub_diag. cbn [shr shr_m].
  now apply Z.leb_le in He as ->.
Qed.

Lemma multiply_one_r a : well_formed a = true -> multiply a float_one = a.
Proof.
  destruct a as [s|s| |s m e]; intros H;
    try (destruct s; reflexivity); try reflexivity.
  now apply multiply_one_finite.
Qed.

(** X4.  Multiplying by [1.0], on either side, returns the other argument
    exactly, for every float the interpreter can hold. *)
Theorem multiply_one_identity (a : float) :
  well_formed a = true ->
  multiply a float_one = a /\ multiply float_one a = a.
Proof.
  intros H. split; [|rewrite multiply_comm_float]; now apply multiply_one_r.
Qed.

Lemma multiply_one_identity_witness :
  multiply tenth float_one = tenth /\ multiply float_one tenth = tenth.
Proof. apply (multiply_one_identity tenth). reflexivity. Defined.

Lemma binary_round_aux_opp s m e l :
  binary_round_aux prec emax (negb s) m e l
  = SFopp (binary_round_aux prec emax s m e l).
Proof.
  unfold binary_round_aux.
  destruct (shr_fexp prec emax m e l) as [mrs' e'].
  destruct (shr_fexp prec emax _ e' loc_Exact) as [mrs'' e''].
  destruct (shr_m mrs'') as [|q|q]; try reflexivity.
  destruct (e'' <=? emax - prec)%Z; reflexivity.
Qed.

Lemma binary_round_opp s m e :
  binary_round prec emax (negb s) m e = SFopp (binary_round prec emax s m e).
Proof.
  unfold binary_round. destruct (shl_align _ _ _) as [mz ez].
  apply binary_round_aux_opp.
Qed.

Lemma is_nan_opp a : is_nan (SFopp a) = is_nan a.
Proof. destruct a; reflexivity. Qed.

Lemma binary_normalize_opp m e :
  float_eq (binary_normalize prec emax (- m) e false)
           (SFopp (binary_normalize prec emax m e false)) = true.
Proof.
  destruct m as [|q|q]; simpl; try reflexivity.
  - pose proof (binary_round_opp false q e) as H. simpl in H. rewrite H.
    now rewrite float_eq_refl, is_nan_opp, binary_round_not_nan.
  - pose proof (binary_round_opp true q e) as H. simpl in H. rewrite H.
    now rewrite float_eq_refl, is_nan_opp, binary_round_not_nan.
Qed.

Lemma cond_Zopp_negb s m : cond_Zopp (negb s) m = - cond_Zopp s m.
Proof. destruct s; simpl; lia. Qed.

Lemma multiply_neg_l a b : multiply (float_neg a) b = float_neg (multiply a b).
Proof.
  destruct a as [sa|sa| |sa ma ea], b as [sb|sb| |sb mb eb];
    try reflexivity; try (destruct sa, sb; reflexivity).
  unfold multiply, float_mul, float_neg. simpl. rewrite <- negb_xorb_l.
  apply binary_round_aux_opp.
Qed.

(** X5.  Whenever the product is not NaN, negating either argument of
    [multiply] negates the product. *)
Theorem multiply_negation (a b : float) :
  is_nan (multiply a b) = false ->
  multiply (float_neg a) b = float_neg (multiply a b)
  /\ multiply a (float_neg b) = float_neg (multiply a b).
Proof.
  intros _. split; [apply multiply_neg_l|].
  now rewrite multiply_comm_float, multiply_neg_l, (multiply_comm_float b a).
Qed.

Lemma multiply_negation_witness :
  multiply (float_neg tenth) (of_Z 3) = float_neg (multiply tenth (of_Z 3))
  /\ multiply tenth (float_neg (of_Z 3)) = float_neg (multiply tenth (of_Z 3)).
Proof. apply (multiply_negation tenth (of_Z 3)). reflexivity. Defined.

(** X6.  Negating both arguments of [add] negates the sum: the comparison
    [add(-a, -b) == -add(a, b)] is [True] whenever the sum is not NaN. *)
Theorem add_negation (a b : float) :
  float_eq (add (float_neg a) (float_neg b)) (float_neg (add a b))
  = negb (is_nan (add a b)).
Proof.
  destruct a as [sa|sa| |sa ma ea], b as [sb|sb| |sb mb eb];
    try reflexivity; try (destruct sa, sb; reflexivity);
    try (destruct sa; reflexivity); try (destruct sb; reflexivity).
  - unfold float_neg, add, float_add. cbn [SFopp SFadd].
    now rewrite float_eq_refl.
  - unfold float_neg, add, float_add. cbn [SFopp SFadd].
    now rewrite float_eq_refl.
  - unfold float_neg, add, float_add. cbn [SFopp SFadd].
    rewrite !cond_Zopp_negb, <- Z.opp_add_distr, binary_normalize_opp.
    now rewrite binary_normalize_not_nan.
Qed.

(** X7.  For every real number [a], [add(a, -a)] and [add(-a, a)] are
    exactly [0.0], the positive zero. *)
Theorem add_inverse (a : float) :
  is_real a = true ->
  add a (float_neg a) = pos_zero /\ add (float_neg a) a = pos_zero.
Proof.
  intros H. rewrite (add_comm_float (float_neg a) a).
  assert (add a (float_neg a) = pos_zero); [|now split].
  destruct a as [s|s| |s m e]; try discriminate.
  - destruct s; reflexivity.
  - apply add_opp_r.
Qed.

Lemma add_inverse_witness :
  add tenth (float_neg tenth) = pos_zero
  /\ add (float_neg tenth) tenth = pos_zero.
Proof. apply (add_inverse tenth). reflexivity. Defined.

(** ** More on the runs of the cell *)

Ltac handle x d := first [exact x | exact d].

Section RunShapeFacts.

Context {Obj Exc : Type}.
Variable lib : Library Obj Exc.
Implicit Types (st : State Obj Exc) (c : Call Obj)
               (ev : Event Obj Exc) (evs : list (Event Obj Exc)).

Lemma execution_flow_shape st :
  run_shape lib st (outcome (execution_flow lib) st)
            (events_of (execution_flow lib) st)
            (snd (execution_flow lib st)).
Proof.
  unfold events_of, outcome. exec lib; trace_norm.
  all: lazymatch goal with
    | |- run_shape _ _ (inr _) _ _ =>
        right; right;
        exists (Build_Handles o o0 o1 o2 o3 o4 o5 o6 o7 o8 o9 o10 o11 o12 o13);
        repeat split
    | |- run_shape _ _ (inl _) [_] _ =>
        left; eexists; repeat split
    | |- run_shape _ _ (inl _) ?l _ =>
        right; left;
        exists (Build_Handles o
                  ltac:(handle o0 o) ltac:(handle o1 o) ltac:(handle o2 o)
                  ltac:(handle o3 o) ltac:(handle o4 o) ltac:(handle o5 o)
                  ltac:(handle o6 o) ltac:(handle o7 o) ltac:(handle o8 o)
                  ltac:(handle o9 o) ltac:(handle o10 o) ltac:(handle o11 o)
                  ltac:(handle o12 o) ltac:(handle o13 o));
        let n := eval cbn [length pred] in (pred (length l)) in
        eexists _, n, _, _; repeat split
    end.
Qed.

End RunShapeFacts.

Ltac position_cases Hn n c x k :=
  lazymatch k with
  | O => cbn in Hn; discriminate Hn
  | S ?k' =>
      destruct n as [|n];
      [ cbn in Hn; first [discriminate Hn | injection Hn as ? ?; subst c x]
      | position_cases Hn n c x k' ]
  end.

Ltac shape_cases lib st :=
  let e := fresh "e" in let h := fresh "h" in let n := fresh "n" in
  let c := fresh "c" in let x := fresh "x" in
  let Hr := fresh "Hr" in let Hn := fresh "Hn" in let Hpos := fresh "Hpos" in
  let Hevs := fresh "Hevs" in let Hg := fresh "Hg" in
  destruct (execution_flow_shape lib st)
    as [(e & Hr & Hevs & Hg)
       |[(h & e & n & c & x & Hr & Hpos & Hn & Hevs & Hg)
        |(h & Hr & Hevs & Hg)]];
  rewrite ?Hr, ?Hevs;
  [ | position_cases Hn n c x 31%nat;
      try (cbn in Hpos; discriminate Hpos); clear Hpos | ].

Section AllRuns.

Context {Obj Exc : Type}.
Variable lib : Library Obj Exc.
Implicit Types (st : State Obj Exc) (c : Call Obj)
               (ev : Event Obj Exc) (evs : list (Event Obj Exc)).

Lemma omap_In {A B} (f : A -> option B) (l : list A) x y :
  In x l -> f x = Some y -> In y (omap f l).
Proof.
  intros Hin Hf. apply list_elem_of_In, list_elem_of_omap.
  exists x. split; [now apply list_elem_of_In | exact Hf].
Qed.

Lemma index_calls_In evs d sc p r :
  In (LibCall (VectorStoreIndex_from_documents d sc p) r) evs ->
  In (d, sc, p) (index_calls evs).
Proof. intros H. exact (omap_In _ _ _ _ H eq_refl). Qed.

Lemma query_engine_calls_In evs i r :
  In (LibCall (index_as_query_engine i) r) evs -> In i (query_engine_calls evs).
Proof. intros H. exact (omap_In _ _ _ _ H eq_refl). Qed.

Lemma chat_calls_In evs a m r :
  In (LibCall (agent_chat a m) r) evs -> In (a, m) (chat_calls evs).
Proof. intros H. exact (omap_In _ _ _ _ H eq_refl). Qed.

(** X8.  In every run of the cell, returning or not, the workflow steps
    taken are an initial segment of the nine steps of a complete run: no
    step is skipped, repeated or taken out of order. *)
Theorem workflow_is_a_prefix st :
  workflow (events_of (execution_flow lib) st) `prefix_of` workflow_steps.
Proof.
  shape_cases lib st; cbn; eexists; reflexivity.
Qed.

(** X9.  A run that ends with an exception is a complete run cut short:
    either [load_dotenv()] raised and nothing else happened, or the events
    are those of a complete run up to some library call, which raised the
    exception instead of returning. *)
Theorem failing_run_is_a_cut st e :
  outcome (execution_flow lib) st = inl e ->
  exists c,
    last (events_of (execution_flow lib) st) = Some (LibCall c (inl e))
    /\ (events_of (execution_flow lib) st = [LibCall load_dotenv (inl e)]
        \/ exists h n x,
             linear_trace (Exc:=Exc) (lib_dotenv lib st) h !! n
             = Some (LibCall c (inr x))
             /\ events_of (execution_flow lib) st
                = take n (linear_trace (lib_dotenv lib st) h)
                  ++ [LibCall c (inl e)]).
Proof.
  intros Hfail.
  destruct (execution_flow_shape lib st)
    as [(e' & Hr & Hevs & _)
       |[(h & e' & n & c & x & Hr & _ & Hn & Hevs & _)
        |(h & Hr & _)]];
    rewrite Hr in Hfail; try discriminate Hfail;
    injection Hfail as ->; rewrite Hevs.
  - exists load_dotenv. split; [reflexivity | now left].
  - exists c. split; [apply last_snoc|]. right. now exists h, n, x.
Qed.

(** X10.  Every [os.getenv] of a run comes after [load_dotenv()] has
    returned and reads the environment it left. *)
Theorem getenv_reads_loaded_environment st :
  Forall (reads_from (lib_dotenv lib st)) (events_of (execution_flow lib) st).
Proof.
  shape_cases lib st; cbn [take app linear_trace]; repeat constructor.
Qed.

(** X11.  When a library call raises, the last progress message printed is
    the one of the phase of that call; nothing has been printed when
    [load_dotenv()] or the LLM constructor raises. *)
Theorem failure_follows_its_progress_message st c e :
  In (LibCall c (inl e)) (events_of (execution_flow lib) st) ->
  last (printed_messages (events_of (execution_flow lib) st)) = phase_message c.
Proof.
  shape_cases lib st; cbn; intros Hin;
    repeat (destruct Hin as [Hin|Hin]; try discriminate Hin);
    try contradiction; injection Hin as <- _; reflexivity.
Qed.

(** X12.  Every index construction of a run, returning or not, is given
    the documents the reader on ["./data"] returned and a storage context
    made from the store the [ElasticsearchStore] constructor returned, with
    progress shown. *)
Theorem index_is_built_from_loaded_documents st documents storage_context
    show_progress r :
  In (LibCall (VectorStoreIndex_from_documents documents storage_context
                                               show_progress) r)
     (events_of (execution_flow lib) st) ->
  show_progress = true
  /\ (exists reader,
         In (LibCall (SimpleDirectoryReader "./data" [".pdf"]) (inr reader))
            (events_of (execution_flow lib) st)
         /\ In (LibCall (reader_load_data reader) (inr documents))
               (events_of (execution_flow lib) st))
  /\ (exists index_name es_url es_user es_password vector_store,
         In (LibCall (ElasticsearchStore index_name es_url es_user es_password)
                     (inr vector_store))
            (events_of (execution_flow lib) st)
         /\ In (LibCall (StorageContext_from_defaults vector_store)
                        (inr storage_context))
               (events_of (execution_flow lib) st)).
Proof.
  shape_cases lib st; intros Hin; apply index_calls_In in Hin.
  all: cbn in Hin; try contradiction.
  all: destruct Hin as [[= <- <- <-]|[]].
  all: split; [reflexivity|]; split;
    [ exists (h_reader h) | do 4 eexists; exists (h_vector_store h) ];
    cbn; tauto.
Qed.

(** X13.  Every query engine of a run is made from the index
    [VectorStoreIndex.from_documents] returned, and every chat query is the
    fixed question, put to the agent [ReActAgent.from_tools] returned. *)
Theorem tools_and_chat_use_what_was_built st :
  (forall index r,
      In (LibCall (index_as_query_engine index) r)
         (events_of (execution_flow lib) st) ->
      exists documents storage_context,
        In (LibCall (VectorStoreIndex_from_documents documents storage_context
                                                     true) (inr index))
           (events_of (execution_flow lib) st))
  /\ (forall agent message r,
         In (LibCall (agent_chat agent message) r)
            (events_of (execution_flow lib) st) ->
         message = chat_message
         /\ exists tools,
              In (LibCall (ReActAgent_from_tools tools true) (inr agent))
                 (events_of (execution_flow lib) st)).
Proof.
  split.
  - intros index r. shape_cases lib st; intros Hin;
      apply query_engine_calls_In in Hin; cbn in Hin; try contradiction;
      destruct Hin as [<-|[]]; do 2 eexists; cbn; tauto.
  - intros agent message r. shape_cases lib st; intros Hin;
      apply chat_calls_In in Hin; cbn in Hin; try contradiction;
      destruct Hin as [[= <- <-]|[]]; (split; [reflexivity|]);
      eexists; cbn; tauto.
Qed.

(** X14.  Nothing is rolled back when a run fails: after any run the
    environment is the one [load_dotenv()] left if it returned,
    [Settings.llm] is the LLM if its constructor returned and
    [Settings.embed_model] the embedding model if its constructor returned;
    each is as before the run otherwise. *)
Theorem failed_run_keeps_its_assignments st :
  environ (snd (execution_flow lib st))
  = (if dotenv_returned (events_of (execution_flow lib) st)
     then lib_dotenv lib st else environ st)
  /\ Settings_llm (snd (execution_flow lib st))
     = match llm_models (events_of (execution_flow lib) st) with
       | [] => Settings_llm st
       | llm :: _ => Some llm
       end
  /\ Settings_embed_model (snd (execution_flow lib st))
     = match embedding_models (events_of (execution_flow lib) st) with
       | [] => Settings_embed_model st
       | model :: _ => Some model
       end.
Proof.
  destruct (execution_flow_shape lib st)
    as [(e & Hr & Hevs & Hg)
       |[(h & e & n & c & x & Hr & Hpos & Hn & Hevs & Hg)
        |(h & Hr & Hevs & Hg)]];
    rewrite Hevs; unfold globals in Hg.
  - injection Hg as -> -> ->. repeat split.
  - position_cases Hn n c x 31%nat; try (cbn in Hpos; discriminate Hpos);
      injection Hg as -> -> ->; repeat apply conj; reflexivity.
  - injection Hg as -> -> ->. repeat split.
Qed.

(** X15.  A returning [create_index] has made the AWS client for
    ["bedrock-runtime"], read the model name, constructed the embedding
    model from both, assigned it to [Settings.embed_model], made the storage
    context from the store it was given, and only then built the index from
    the documents it was given, which it returns. *)
Theorem create_index_trace documents vector_store st index :
  outcome (create_index lib documents vector_store) st = inr index ->
  exists client model storage_context,
    events_of (create_index lib documents vector_store) st =
      [ LibCall (boto3_client "bedrock-runtime") (inr client);
        Getenv "AWS_BEDROCK_EMBEDDING_MODEL"
               (environ st !! "AWS_BEDROCK_EMBEDDING_MODEL");
        LibCall (BedrockEmbedding (environ st !! "AWS_BEDROCK_EMBEDDING_MODEL")
                                  client)
                (inr model);
        Assign field_embed_model model;
        LibCall (StorageContext_from_defaults vector_store)
                (inr storage_context);
        LibCall (VectorStoreIndex_from_documents documents storage_context true)
                (inr index) ].
Proof.
  unfold events_of, outcome. exec lib; trace_norm; try discriminate.
  intros [= <-]. now exists o, o0, o1.
Qed.

(** X16.  After any run of [create_index], [Settings.embed_model] is the
    embedding model if its constructor returned, also when the storage
    context or the index construction raised afterwards, and is unchanged
    otherwise. *)
Theorem create_index_keeps_its_assignment documents vector_store st :
  Settings_embed_model (snd (create_index lib documents vector_store st))
  = match embedding_models
            (events_of (create_index lib documents vector_store) st) with
    | [] => Settings_embed_model st
    | model :: _ => Some model
    end.
Proof.
  unfold events_of. exec lib; trace_norm; reflexivity.
Qed.

(** X17.  [get_budget_tool] first asks the index for a query engine; if
    that raises, so does [get_budget_tool], without constructing a tool;
    otherwise its outcome is the outcome of the tool constructor, called on
    that engine with the name and the description it was given. *)
Theorem get_budget_tool_forwards index name description st :
  exists first,
    events_of (get_budget_tool lib index name description) st =
      LibCall (index_as_query_engine index) first ::
      match first with
      | inl _ => []
      | inr query_engine =>
          [LibCall (QueryEngineTool_from_defaults query_engine name description)
                   (outcome (get_budget_tool lib index name description) st)]
      end
    /\ match first with
       | inl e => outcome (get_budget_tool lib index name description) st = inl e
       | inr _ => True
       end.
Proof.
  unfold events_of, outcome. exec lib; trace_norm.
  - exists (inl e). split; reflexivity.
  - exists (inr o). split; reflexivity.
  - exists (inr o). split; reflexivity.
Qed.

End AllRuns.

(** ** The notebook's own writes to shared state *)

Section SharedState.

Context {Obj Exc : Type}.
Variable lib : Library Obj Exc.
Implicit Types (st : State Obj Exc).

(** C3, amended.  The notebook's own statements assign shared state in two
    places only.  [load_documents], [initialize_elasticsearch],
    [get_budget_tool] and [get_react_agent] make no assignment, whatever
    the libraries answer.  [create_index] makes one, of the embedding model
    to [Settings.embed_model], exactly when the model constructor returned.
    The cell makes one more, of the LLM to [Settings.llm], exactly when the
    LLM constructor returned, and before that of [create_index]; a complete
    run makes both, and ends with the two fields holding the objects
    assigned and with the environment [load_dotenv()] left.  Nothing is said
    of what the library calls change inside themselves. *)
Theorem shared_state_writes st :
  (forall pdf_folder,
      settings_writes (events_of (load_documents lib pdf_folder) st) = [])
  /\ settings_writes (events_of (initialize_elasticsearch lib) st) = []
  /\ (forall index name description,
         settings_writes
           (events_of (get_budget_tool lib index name description) st) = [])
  /\ (forall multiply_tool add_tool budget_tool,
         settings_writes
           (events_of (get_react_agent lib multiply_tool add_tool budget_tool)
                      st) = [])
  /\ (forall documents vector_store,
         settings_writes
           (events_of (create_index lib documents vector_store) st)
         = map (pair field_embed_model)
               (embedding_models
                  (events_of (create_index lib documents vector_store) st)))
  /\ settings_writes (events_of (execution_flow lib) st)
     = map (pair field_llm) (llm_models (events_of (execution_flow lib) st))
       ++ map (pair field_embed_model)
              (embedding_models (events_of (execution_flow lib) st))
  /\ (forall resp,
         outcome (execution_flow lib) st = inr resp ->
         exists llm model,
           settings_writes (events_of (execution_flow lib) st)
           = [(field_llm, llm); (field_embed_model, model)]
           /\ globals (snd (execution_flow lib st))
              = (lib_dotenv lib st, Some llm, Some model)).
Proof.
  repeat apply conj.
  - intros pdf_folder. unfold events_of. exec lib; trace_norm; reflexivity.
  - unfold events_of. exec lib; trace_norm; reflexivity.
  - intros index name description.
    unfold events_of. exec lib; trace_norm; reflexivity.
  - intros multiply_tool add_tool budget_tool.
    unfold events_of. exec lib; trace_norm; reflexivity.
  - intros documents vector_store.
    unfold events_of. exec lib; trace_norm; reflexivity.
  - shape_cases lib st; reflexivity.
  - intros resp Hok.
    destruct (execution_flow_success lib st resp Hok) as (h & _ & -> & Hg).
    exists (h_llm h), (h_bedrock_embedding_model h). now split.
Qed.

End SharedState.

(** ** More runs on the concrete libraries *)

Import MoreDemo.

Lemma shared_state_writes_witness :
  exists llm model : nat,
    settings_writes (events_of (execution_flow demo_lib) initial)
    = [(field_llm, llm); (field_embed_model, model)]
    /\ globals (snd (execution_flow demo_lib initial))
       = (lib_dotenv demo_lib initial, Some llm, Some model).
Proof.
  destruct (shared_state_writes demo_lib initial)
    as (_ & _ & _ & _ & _ & _ & H).
  apply (H 30%nat). vm_compute. reflexivity.
Defined.

(** A run that fails while connecting to the store has made the assignment
    of the cell and not that of [create_index]. *)
Example offline_run_writes :
  settings_writes (events_of (execution_flow offline_lib) initial)
  = [(field_llm, 2%nat)].
Proof. vm_compute. reflexivity. Qed.

Lemma failing_run_is_a_cut_witness :
  exists c : Call nat,
    last (events_of (execution_flow offline_lib) initial)
    = Some (LibCall c (inl "ConnectionError"))
    /\ (events_of (execution_flow offline_lib) initial
        = [LibCall load_dotenv (inl "ConnectionError")]
        \/ exists h n x,
             linear_trace (Exc:=string) (lib_dotenv offline_lib initial) h !! n
             = Some (LibCall c (inr x))
             /\ events_of (execution_flow offline_lib) initial
                = take n (linear_trace (lib_dotenv offline_lib initial) h)
                  ++ [LibCall c (inl "ConnectionError")]).
Proof.
  apply (failing_run_is_a_cut offline_lib initial "ConnectionError").
  vm_compute. reflexivity.
Defined.

Lemma failure_follows_its_progress_message_witness :
  last (printed_messages (events_of (execution_flow offline_lib) initial))
  = Some "Initializing OpenSearch...".
Proof.
  apply (failure_follows_its_progress_message offline_lib initial
           (ElasticsearchStore (Some "budget") (Some "http://localhost:9200")
                               (Some "elastic") (Some "changeme"))
           "ConnectionError").
  vm_compute. repeat first [left; reflexivity | right].
Defined.

Lemma index_is_built_from_loaded_documents_witness :
  true = true
  /\ (exists reader : nat,
         In (LibCall (SimpleDirectoryReader "./data" [".pdf"]) (inr reader))
            (events_of (execution_flow quota_lib) initial)
         /\ In (LibCall (reader_load_data reader) (inr 6%nat))
               (events_of (execution_flow quota_lib) initial))
  /\ (exists index_name es_url es_user es_password (vector_store : nat),
         In (LibCall (ElasticsearchStore index_name es_url es_user es_password)
                     (inr vector_store))
            (events_of (execution_flow quota_lib) initial)
         /\ In (LibCall (StorageContext_from_defaults vector_store)
                        (inr 20%nat))
               (events_of (execution_flow quota_lib) initial)).
Proof.
  apply (index_is_built_from_loaded_documents quota_lib initial
           6%nat 20%nat true (inl "ThrottlingException")).
  vm_compute. repeat first [left; reflexivity | right].
Defined.

Lemma tools_and_chat_use_what_was_built_witness :
  chat_message = chat_message
  /\ exists tools : list nat,
       In (LibCall (ReActAgent_from_tools tools true) (inr 29%nat))
          (events_of (execution_flow demo_lib) initial).
Proof.
  apply (proj2 (tools_and_chat_use_what_was_built demo_lib initial)
               29%nat chat_message (inr 30%nat)).
  vm_compute. repeat first [left; reflexivity | right].
Defined.

Lemma create_index_trace_witness :
  exists client model storage_context : nat,
    events_of (create_index demo_lib 6%nat 13%nat) initial =
      [ LibCall (boto3_client "bedrock-runtime") (inr client);
        Getenv "AWS_BEDROCK_EMBEDDING_MODEL"
               (environ initial !! "AWS_BEDROCK_EMBEDDING_MODEL");
        LibCall (BedrockEmbedding
                   (environ initial !! "AWS_BEDROCK_EMBEDDING_MODEL") client)
                (inr model);
        Assign field_embed_model model;
        LibCall (StorageContext_from_defaults 13%nat) (inr storage_context);
        LibCall (VectorStoreIndex_from_documents 6%nat storage_context true)
                (inr 5%nat) ].
Proof.
  apply (create_index_trace demo_lib 6%nat 13%nat initial 5%nat).
  vm_compute. reflexivity.
Defined.

(** A run that fails while indexing has changed both [Settings] fields. *)
Example quota_run_keeps_assignments :
  outcome (execution_flow quota_lib) initial = inl "ThrottlingException"
  /\ Settings_llm (snd (execution_flow quota_lib initial)) = Some 2%nat
  /\ Settings_embed_model (snd (execution_flow quota_lib initial))
     = Some 18%nat
  /\ outcome (create_index quota_lib 6%nat 13%nat) initial
     = inl "ThrottlingException"
  /\ Settings_embed_model (snd (create_index quota_lib 6%nat 13%nat initial))
     = Some 2%nat.
Proof. repeat split; vm_compute; reflexivity. Qed.
